(** * sistema-figuras.js: geometric shapes, similarity strategies, 3D adapter

    A shallow embedding of [sistema-figuras.js].  JavaScript Numbers are the
    IEEE-754 binary64 values of [PrimFloat]; exceptions are an error result;
    [Math.random] is a counter of draws threaded through construction; the
    console is the list of lines written so far. *)

From Stdlib Require Import Reals Lra.
From Stdlib Require Import ZArith Zpower Floats Lia Ascii String.
From stdpp Require Import base strings gmap list pretty.

Local Open Scope string_scope.

(** ** Values, errors *)

Inductive JsValue : Type :=
| JsUndefined
| JsNull
| JsBoolean (b : bool)
| JsNumber (x : float)
| JsBigInt (z : Z)
| JsString (s : string)
| JsSymbol (desc : string)
| JsObject (ref : nat)
| JsFunction (ref : nat).

Definition typeof (v : JsValue) : string :=
  match v with
  | JsUndefined => "undefined"
  | JsNull => "object"
  | JsBoolean _ => "boolean"
  | JsNumber _ => "number"
  | JsBigInt _ => "bigint"
  | JsString _ => "string"
  | JsSymbol _ => "symbol"
  | JsObject _ => "object"
  | JsFunction _ => "function"
  end.

(** [new Error(msg)] and the engine's own [TypeError]. *)
Inductive JsError : Type :=
| Error (message : string)
| TypeError (message : string).

Inductive result (A : Type) : Type :=
| Ok (a : A)
| Throw (e : JsError).
Arguments Ok {A} a.
Arguments Throw {A} e.

Definition comilla : string := String (Ascii.ascii_of_nat 34) EmptyString.

(** The three messages the program throws, under the names the
    specification gives them. *)
Definition InvalidParameter (nombre : string) : JsError :=
  Error ("El parámetro " +:+ comilla +:+ nombre +:+ comilla
         +:+ " debe ser un número mayor que 0").
Definition UnknownKind : JsError := Error "Tipo no reconocido".
Definition NotImplemented : JsError := Error "Método no implementado".

(** ** The engine's built-ins

    ECMA-262 leaves [**] on finite non-zero operands and [Math.tan]
    implementation-approximated, and [Number.prototype.toString] with a radix
    implementation-defined; [Math.random] is a source of draws.  They are the
    parameters of the development.  The arithmetic operators, comparisons and
    [Math.sqrt] are the IEEE-754 operations of [PrimFloat]. *)
Class Runtime : Type := {
  exponentiate : float -> float -> float;
  Math_tan : float -> float;
  Number_toString : float -> nat -> string;
  Math_random : nat -> float
}.

Definition Math_PI : float := 0x1.921fb54442d18p+1%float.
Definition Math_sqrt : float -> float := PrimFloat.sqrt.

(** The literals [0.8] and [1.2] denote the nearest binary64 values. *)
Definition lit_0_8 : float := 0x1.999999999999ap-1%float.
Definition lit_1_2 : float := 0x1.3333333333333p+0%float.

(** ** [Number.prototype.toFixed] (ECMA-262 21.1.3.3)

    [n] is the integer for which [n / 10^f - x] is closest to zero, the
    larger one on a tie; values of magnitude [10^21] and above, and the
    non-finite ones, go through [Number::toString]. *)
Definition toFixed_entero (m : positive) (e : Z) (f : nat) : Z :=
  let escala := (Z.pos m * 10 ^ Z.of_nat f)%Z in
  match e with
  | Zneg p => ((2 * escala + 2 ^ Z.pos p) / 2 ^ (Z.pos p + 1))%Z
  | _ => (escala * 2 ^ e)%Z
  end.

Fixpoint ceros (k : nat) : string :=
  match k with
  | O => EmptyString
  | S k' => String "0"%char (ceros k')
  end.

Definition toFixed_digitos (n : Z) (f : nat) : string :=
  let m := pretty n in
  match f with
  | O => m
  | S _ =>
      let m := if decide (String.length m <= f)%nat
               then ceros (S f - String.length m) +:+ m else m in
      let k := String.length m in
      String.substring 0 (k - f) m +:+ "." +:+ String.substring (k - f) f m
  end.

Definition toFixed `{Runtime} (x : float) (f : nat) : string :=
  match Prim2SF x with
  | S754_nan => "NaN"
  | S754_infinity false => "Infinity"
  | S754_infinity true => "-Infinity"
  | S754_zero _ => toFixed_digitos 0 f
  | S754_finite s m e =>
      (if s then "-" else EmptyString)
      +:+ (if (0x1.b1ae4d6e2ef5p+69 <=? abs x)%float
           then Number_toString (abs x) 10
           else toFixed_digitos (toFixed_entero m e f) f)
  end.

(** ** Construction: errors and the draws of [Math.random]

    A computation takes the number of draws made so far and returns its
    outcome with the new count. *)
Definition M (A : Type) : Type := nat -> result A * nat.

#[global] Instance M_ret : MRet M := fun A a n => (Ok a, n).
#[global] Instance M_bind : MBind M := fun A B f m n =>
  match m n with
  | (Ok a, n') => f a n'
  | (Throw e, n') => (Throw e, n')
  end.

Definition throw {A : Type} (e : JsError) : M A := fun n => (Throw e, n).

Definition lift {A : Type} (r : result A) : M A := fun n => (r, n).

(** [Math.random().toString(36).substr(2, 9)] *)
Definition nuevo_id `{Runtime} : M string :=
  fun n => (Ok (String.substring 2 9 (Number_toString (Math_random n) 36)), S n).

(** ** Validation *)

(** [valor <= 0], which [validarNumero] evaluates only once [typeof valor]
    is ['number']: the other cases are never read. *)
Definition menor_igual_cero (valor : JsValue) : bool :=
  match valor with
  | JsNumber x => (x <=? 0)%float
  | _ => false
  end.

Definition validarNumero (valor : JsValue) (nombre : string) : result unit :=
  if negb (typeof valor =? "number") || menor_igual_cero valor
  then Throw (InvalidParameter nombre)
  else Ok tt.

(** The Number a value that passed [validarNumero] is. *)
Definition numero (valor : JsValue) : float :=
  match valor with
  | JsNumber x => x
  | _ => nan
  end.

(** ** Instances

    [Solido] are the instances of [Cubo] and [Esfera]; [Figura] those of the
    four subclasses of [FiguraGeometrica] and of [Figura3DAdapter], each with
    the fields its constructor assigns ([id] is the private [#id]). *)
Inductive Solido : Type :=
| Cubo (nombre : string) (lado : float)
| Esfera (nombre : string) (radio : float).

Inductive Figura : Type :=
| Circulo (nombre id : string) (radio : float)
| Rectangulo (nombre id : string) (ancho alto : float)
| Pentagono (nombre id : string) (lado : float)
| Hexagono (nombre id : string) (lado : float)
| Figura3DAdapter (figura3D : Solido) (nombre : string).

Definition Solido_nombre (s : Solido) : string :=
  match s with
  | Cubo nombre _ | Esfera nombre _ => nombre
  end.

Definition nombre (f : Figura) : string :=
  match f with
  | Circulo nombre _ _ | Rectangulo nombre _ _ _
  | Pentagono nombre _ _ | Hexagono nombre _ _
  | Figura3DAdapter _ nombre => nombre
  end.

(** *** Constructors *)

Definition new_Circulo `{Runtime} (radio : JsValue) : M Figura :=
  _ ← lift (validarNumero radio "radio");
  id ← nuevo_id;
  mret (Circulo "Círculo" id (numero radio)).

Definition new_Rectangulo `{Runtime} (ancho alto : JsValue) : M Figura :=
  _ ← lift (validarNumero ancho "ancho");
  _ ← lift (validarNumero alto "alto");
  id ← nuevo_id;
  mret (Rectangulo "Rectángulo" id (numero ancho) (numero alto)).

Definition new_Pentagono `{Runtime} (lado : JsValue) : M Figura :=
  _ ← lift (validarNumero lado "lado");
  id ← nuevo_id;
  mret (Pentagono "Pentágono" id (numero lado)).

Definition new_Hexagono `{Runtime} (lado : JsValue) : M Figura :=
  _ ← lift (validarNumero lado "lado");
  id ← nuevo_id;
  mret (Hexagono "Hexágono" id (numero lado)).

Definition new_Cubo (lado : JsValue) : M Solido :=
  _ ← lift (validarNumero lado "lado");
  mret (Cubo "Cubo" (numero lado)).

Definition new_Esfera (radio : JsValue) : M Solido :=
  _ ← lift (validarNumero radio "radio");
  mret (Esfera "Esfera" (numero radio)).

Definition new_Figura3DAdapter (figura3D : Solido) : M Figura :=
  mret (Figura3DAdapter figura3D (Solido_nombre figura3D)).

(** *** The factory [FiguraGeometrica.crear]

    [parametros] is an object: [parametros.campo] is the field, or
    [undefined] where the object has none. *)
Definition campo (parametros : gmap string JsValue) (k : string) : JsValue :=
  default JsUndefined (parametros !! k).

Definition crear `{Runtime} (tipo : JsValue) (parametros : gmap string JsValue)
  : M Figura :=
  match tipo with
  | JsString t =>
      if t =? "circulo" then new_Circulo (campo parametros "radio")
      else if t =? "rectangulo" then
        new_Rectangulo (campo parametros "ancho") (campo parametros "alto")
      else if t =? "pentagono" then new_Pentagono (campo parametros "lado")
      else if t =? "hexagono" then new_Hexagono (campo parametros "lado")
      else if t =? "cubo" then
        s ← new_Cubo (campo parametros "lado"); new_Figura3DAdapter s
      else if t =? "esfera" then
        s ← new_Esfera (campo parametros "radio"); new_Figura3DAdapter s
      else throw UnknownKind
  | _ => throw UnknownKind
  end.

(** ** Classes and their members

    What each class body declares on its prototype, and [extends]. *)
Inductive Clase : Type :=
| CFiguraGeometrica | CCirculo | CRectangulo | CPentagono | CHexagono
| CFigura3DAdapter | CCubo | CEsfera.

Definition extends (c : Clase) : option Clase :=
  match c with
  | CCirculo | CRectangulo | CPentagono | CHexagono => Some CFiguraGeometrica
  | _ => None
  end.

Definition miembros (c : Clase) : list string :=
  match c with
  | CFiguraGeometrica =>
      ["calcularArea"; "calcularPerimetro"; "dibujarASCII"; "describir";
       "id"; "compararSimilitud"]
  | CCirculo | CRectangulo | CPentagono | CHexagono =>
      ["calcularArea"; "calcularPerimetro"; "dibujarASCII"]
  | CFigura3DAdapter =>
      ["calcularArea"; "calcularPerimetro"; "describir"; "dibujarASCII"]
  | CCubo | CEsfera => ["calcularVolumen"; "dibujarASCII"]
  end.

(** Lookup along the prototype chain, which is at most two classes long. *)
Definition tiene (c : Clase) (m : string) : bool :=
  bool_decide (m ∈ miembros c)
  || match extends c with
     | Some p => bool_decide (m ∈ miembros p)
     | None => false
     end.

Definition clase_de (f : Figura) : Clase :=
  match f with
  | Circulo _ _ _ => CCirculo
  | Rectangulo _ _ _ _ => CRectangulo
  | Pentagono _ _ _ => CPentagono
  | Hexagono _ _ _ => CHexagono
  | Figura3DAdapter _ _ => CFigura3DAdapter
  end.

Definition responde (f : Figura) (m : string) : bool := tiene (clase_de f) m.

(** ** Methods *)

(** The template literals of the six [dibujarASCII] bodies, a backslash
    escape read as the one character it denotes. *)
Definition ASCII_Circulo : string := "
   ***   
 *     * 
 *     * 
   ***   
".

Definition ASCII_Rectangulo : string := "
+-----------+
|           |
|           |
+-----------+
".

Definition ASCII_Pentagono : string := "
   /\
  /  \
 /____\
 \    /
  \__/
".

Definition ASCII_Hexagono : string := "
  ____  
 /    \ 
/      \
\      /
 \____/
".

Definition ASCII_Cubo : string := "
+------+
|      |
+------+
|      |
+------+
".

Definition ASCII_Esfera : string := "
   ***   
 *     * 
 *     * 
   ***   
".

Definition calcularVolumen `{Runtime} (s : Solido) : float :=
  match s with
  | Cubo _ lado => exponentiate lado 3
  | Esfera _ radio => (4 / 3 * Math_PI * exponentiate radio 3)%float
  end.

Definition Solido_dibujarASCII (s : Solido) : string :=
  match s with
  | Cubo _ _ => ASCII_Cubo
  | Esfera _ _ => ASCII_Esfera
  end.

Definition calcularArea `{Runtime} (f : Figura) : float :=
  match f with
  | Circulo _ _ radio => (Math_PI * exponentiate radio 2)%float
  | Rectangulo _ _ ancho alto => (ancho * alto)%float
  | Pentagono _ _ lado =>
      (5 * exponentiate lado 2 / (4 * Math_tan (Math_PI / 5)))%float
  | Hexagono _ _ lado => (3 * Math_sqrt 3 / 2 * exponentiate lado 2)%float
  | Figura3DAdapter figura3D _ =>
      exponentiate (calcularVolumen figura3D) (2 / 3)%float
  end.

Definition calcularPerimetro (f : Figura) : float :=
  match f with
  | Circulo _ _ radio => (2 * Math_PI * radio)%float
  | Rectangulo _ _ ancho alto => (2 * (ancho + alto))%float
  | Pentagono _ _ lado => (5 * lado)%float
  | Hexagono _ _ lado => (6 * lado)%float
  | Figura3DAdapter _ _ => 0%float
  end.

Definition dibujarASCII (f : Figura) : string :=
  match f with
  | Circulo _ _ _ => ASCII_Circulo
  | Rectangulo _ _ _ _ => ASCII_Rectangulo
  | Pentagono _ _ _ => ASCII_Pentagono
  | Hexagono _ _ _ => ASCII_Hexagono
  | Figura3DAdapter figura3D _ => Solido_dibujarASCII figura3D
  end.

Definition describir `{Runtime} (f : Figura) : string :=
  match f with
  | Figura3DAdapter figura3D nombre =>
      nombre +:+ " (3D) - Volumen: " +:+ toFixed (calcularVolumen figura3D) 2
  | _ =>
      nombre f +:+ " - Área: " +:+ toFixed (calcularArea f) 2
      +:+ ", Perímetro: " +:+ toFixed (calcularPerimetro f) 2
  end.

(** The getter [id]: the private field where the class has one, and
    [undefined] for a property the object lacks. *)
Definition get_id (f : Figura) : JsValue :=
  match f with
  | Circulo _ id _ | Rectangulo _ id _ _
  | Pentagono _ id _ | Hexagono _ id _ => JsString id
  | Figura3DAdapter _ _ => JsUndefined
  end.

(** ** Similarity strategies *)
Inductive Estrategia : Type :=
| SimilitudStrategy
| SimilitudTipo
| SimilitudArea.

Definition sonSimilares `{Runtime} (e : Estrategia) (fig1 fig2 : Figura)
  : result bool :=
  match e with
  | SimilitudStrategy => Throw NotImplemented
  | SimilitudTipo => Ok (nombre fig1 =? nombre fig2)
  | SimilitudArea =>
      let a1 := calcularArea fig1 in
      let a2 := calcularArea fig2 in
      let ratio := (a1 / a2)%float in
      Ok ((lit_0_8 <? ratio)%float && (ratio <? lit_1_2)%float)
  end.

(** [this.compararSimilitud(figura, estrategia)]; [None] is the omitted
    argument.  Calling a member the receiver lacks is a [TypeError]. *)
Definition compararSimilitud `{Runtime} (this figura : Figura)
    (estrategia : option Estrategia) : result bool :=
  if responde this "compararSimilitud"
  then sonSimilares (default SimilitudTipo estrategia) this figura
  else Throw (TypeError "compararSimilitud is not a function").

(** ** The collection and the console *)
Record ColeccionFiguras : Type := { figuras : list Figura }.

Definition new_ColeccionFiguras : ColeccionFiguras := {| figuras := [] |}.

Definition agregar (c : ColeccionFiguras) (figura : Figura) : ColeccionFiguras :=
  {| figuras := figuras c ++ [figura] |}.

Definition console_log (consola : list string) (linea : string) : list string :=
  consola ++ [linea].

Definition listar `{Runtime} (c : ColeccionFiguras) (consola : list string)
  : list string :=
  fold_left (fun consola f => console_log consola (describir f))
            (figuras c) (console_log consola "=== FIGURAS ===").

(** ** Vocabulary of the statements *)

(** Comparisons of a Number with zero, as the program would evaluate them:
    [0 <= x], [0 < x], and [0 < x && x < Infinity]. The last one is a
    strictly positive real. *)
Definition no_negativo (x : float) : Prop := (0 <=? x)%float = true.
Definition positivo (x : float) : Prop := (0 <? x)%float = true.
Definition finito_positivo (x : float) : Prop :=
  (0 <? x)%float && (x <? infinity)%float = true.

(** [c <= x]. *)
Definition desde (c x : float) : Prop := (c <=? x)%float = true.

(** A value that is a real number: a Number other than NaN and the
    infinities. *)
Definition es_real (v : JsValue) : bool :=
  match v with
  | JsNumber x => is_finite x
  | _ => false
  end.

(** A strictly positive real, as a value. *)
Definition valido (v : JsValue) : Prop :=
  match v with
  | JsNumber x => finito_positivo x
  | _ => False
  end.

(** The condition under which [validarNumero] throws, as written. *)
Definition rechazado (v : JsValue) : Prop :=
  typeof v <> "number" \/ exists x, v = JsNumber x /\ (x <=? 0)%float = true.

(** The condition under which it returns: a Number above zero, [Infinity]
    included. *)
Definition aceptado (v : JsValue) : Prop :=
  exists x, v = JsNumber x /\ positivo x.

(** The id drawn at the [k]-th call of [Math.random]. *)
Definition id_de `{Runtime} (k : nat) : string :=
  String.substring 2 9 (Number_toString (Math_random k) 36).

(** The kind tags of the factory's [switch], and a parameter bag whose
    fields for that kind are strictly positive reals. *)
Definition reconocidos : list string :=
  ["circulo"; "rectangulo"; "pentagono"; "hexagono"; "cubo"; "esfera"].

Definition tridimensionales : list string := ["cubo"; "esfera"].

Definition campos_de (t : string) : list string :=
  if t =? "circulo" then ["radio"]
  else if t =? "rectangulo" then ["ancho"; "alto"]
  else if t =? "esfera" then ["radio"]
  else ["lado"].

Definition bolsa_valida (t : string) (parametros : gmap string JsValue) : Prop :=
  Forall (fun k => valido (campo parametros k)) (campos_de t).

(** The display name behind each kind tag. *)
Definition etiqueta (t : string) : string :=
  if t =? "circulo" then "Círculo"
  else if t =? "rectangulo" then "Rectángulo"
  else if t =? "pentagono" then "Pentágono"
  else if t =? "hexagono" then "Hexágono"
  else if t =? "cubo" then "Cubo"
  else "Esfera".

(** The members of the 2D shape contract. *)
Definition contrato_2D : list string :=
  ["calcularArea"; "calcularPerimetro"; "dibujarASCII"; "describir";
   "id"; "compararSimilitud"].

Definition conforme (f : Figura) : bool := forallb (responde f) contrato_2D.

(** An instance whose dimensions are strictly positive reals. *)
Definition Solido_valido (s : Solido) : Prop :=
  match s with
  | Cubo _ lado => finito_positivo lado
  | Esfera _ radio => finito_positivo radio
  end.

Definition Figura_valida (f : Figura) : Prop :=
  match f with
  | Circulo _ _ radio => finito_positivo radio
  | Rectangulo _ _ ancho alto => finito_positivo ancho /\ finito_positivo alto
  | Pentagono _ _ lado | Hexagono _ _ lado => finito_positivo lado
  | Figura3DAdapter figura3D _ => Solido_valido figura3D
  end.

(** What the statements about signs ask of the engine: a power of a
    non-negative base to a finite positive exponent is neither negative nor
    NaN, and the tangent of [Math.PI / 5] lies in (0, 1]. *)
Definition potencia_no_negativa `{Runtime} : Prop :=
  forall x y : float,
    no_negativo x -> finito_positivo y -> no_negativo (exponentiate x y).

Definition tangente_acotada `{Runtime} : Prop :=
  positivo (Math_tan (Math_PI / 5)) /\
  (Math_tan (Math_PI / 5) <=? 1)%float = true.

(** The area-similarity test on a ratio. *)
Definition en_banda (ratio : float) : bool :=
  (lit_0_8 <? ratio)%float && (ratio <? lit_1_2)%float.

(** ** A runtime to evaluate the model on

    It answers for the arguments the program passes: the exponents 2 and 3
    by multiplication, the exponent 2/3 through a Newton cube root, the
    tangent at [Math.PI / 5], and one draw [0.5], which reads [0.i] in
    base 36.  It serves the closed instances of the theorems. *)
Fixpoint raiz_cubica (n : nat) (v c : float) : float :=
  match n with
  | O => c
  | S n' => raiz_cubica n' v ((2 * c + v / (c * c)) / 3)%float
  end.

Definition potencia_de_prueba (x y : float) : float :=
  let r :=
    if (y =? 2)%float then (x * x)%float
    else if (y =? 3)%float then (x * x * x)%float
    else if (y =? 2 / 3)%float then
      let c := raiz_cubica 64 x (if (x <? 1)%float then 1%float else x) in
      (c * c)%float
    else nan in
  if (0 <=? r)%float then r else 0%float.

Definition runtime_de_prueba : Runtime := {|
  exponentiate := potencia_de_prueba;
  Math_tan x :=
    if (x =? Math_PI / 5)%float then 0x1.73fd61d9df543p-1%float else nan;
  Number_toString x radix := "0.i";
  Math_random n := 0.5%float
|}.

(** ** Rounding, spelled out

    The two right shifts of [binary_round_aux] for binary64, and the shapes
    of its outcome. *)
Definition desplazamiento (d e : Z) : Z := Z.max 0 (fexp prec emax (d + e) - e).

Definition con_signo (s : bool) (x : spec_float) : Prop :=
  match x with
  | S754_zero s' | S754_infinity s' | S754_finite s' _ _ => s' = s
  | S754_nan => False
  end.

Definition no_nulo (s : bool) (x : spec_float) : Prop :=
  match x with
  | S754_infinity s' | S754_finite s' _ _ => s' = s
  | _ => False
  end.

Definition finito_no_nulo (s : bool) (x : spec_float) : Prop :=
  match x with
  | S754_finite s' _ _ => s' = s
  | _ => False
  end.

(** At least [2^(k-1)]: a positive infinity, or a positive finite value
    whose significand has [d] digits and exponent [e] with [k <= d + e]. *)
Definition al_menos (k : Z) (x : spec_float) : Prop :=
  match x with
  | S754_infinity false => True
  | S754_finite false m e => (k <= Z.pos (digits2_pos m) + e)%Z
  | _ => False
  end.

(** At most [2^k]: a positive finite value with [d + e <= k]. *)
Definition a_lo_sumo (k : Z) (x : spec_float) : Prop :=
  match x with
  | S754_finite false m e => (Z.pos (digits2_pos m) + e <= k)%Z
  | _ => False
  end.

(** ** Beyond the factory's instances

    The rest of the class bodies: [FiguraGeometrica] instantiated directly,
    whose [calcularArea] and [calcularPerimetro] throw and whose
    [dibujarASCII] is a placeholder; its [describir], which the four
    subclasses inherit; and the strategies and the collection run on such
    objects. *)
#[global] Instance result_ret : MRet result := fun A a => Ok a.
#[global] Instance result_bind : MBind result := fun A B f m =>
  match m with
  | Ok a => f a
  | Throw e => Throw e
  end.

(** A [FiguraGeometrica] proper, or an instance of a subclass or of the
    adapter. *)
Inductive Objeto : Type :=
| FiguraGeometrica (nombre id : string)
| Derivada (f : Figura).

Definition new_FiguraGeometrica `{Runtime} (nombre : string) : M Objeto :=
  id ← nuevo_id;
  mret (FiguraGeometrica nombre id).

Definition Objeto_nombre (o : Objeto) : string :=
  match o with
  | FiguraGeometrica nombre _ => nombre
  | Derivada f => nombre f
  end.

Definition Objeto_calcularArea `{Runtime} (o : Objeto) : result float :=
  match o with
  | FiguraGeometrica _ _ =>
      Throw (Error "Método calcularArea debe ser implementado")
  | Derivada f => Ok (calcularArea f)
  end.

Definition Objeto_calcularPerimetro (o : Objeto) : result float :=
  match o with
  | FiguraGeometrica _ _ =>
      Throw (Error "Método calcularPerimetro debe ser implementado")
  | Derivada f => Ok (calcularPerimetro f)
  end.

Definition Objeto_dibujarASCII (o : Objeto) : string :=
  match o with
  | FiguraGeometrica nombre _ => "[No implementado para " +:+ nombre +:+ "]"
  | Derivada f => dibujarASCII f
  end.

(** The body of [FiguraGeometrica.prototype.describir]: the template
    literal evaluates [this.calcularArea()] before
    [this.calcularPerimetro()]. *)
Definition FiguraGeometrica_describir `{Runtime} (this : Objeto) : result string :=
  area ← Objeto_calcularArea this;
  perimetro ← Objeto_calcularPerimetro this;
  mret (Objeto_nombre this +:+ " - Área: " +:+ toFixed area 2
        +:+ ", Perímetro: " +:+ toFixed perimetro 2).

Definition Objeto_describir `{Runtime} (o : Objeto) : result string :=
  match o with
  | Derivada (Figura3DAdapter figura3D nombre) =>
      Ok (nombre +:+ " (3D) - Volumen: " +:+ toFixed (calcularVolumen figura3D) 2)
  | _ => FiguraGeometrica_describir o
  end.

Definition Objeto_sonSimilares `{Runtime} (e : Estrategia) (fig1 fig2 : Objeto)
  : result bool :=
  match e with
  | SimilitudStrategy => Throw NotImplemented
  | SimilitudTipo => Ok (Objeto_nombre fig1 =? Objeto_nombre fig2)
  | SimilitudArea =>
      a1 ← Objeto_calcularArea fig1;
      a2 ← Objeto_calcularArea fig2;
      let ratio := (a1 / a2)%float in
      mret ((lit_0_8 <? ratio)%float && (ratio <? lit_1_2)%float)
  end.

(** [figuras.forEach(f => console.log(f.describir()))]: the first throw ends
    the loop, with the lines written so far on the console. *)
Fixpoint forEach_describir `{Runtime} (figuras : list Objeto)
    (consola : list string) : result unit * list string :=
  match figuras with
  | [] => (Ok tt, consola)
  | f :: resto =>
      match Objeto_describir f with
      | Ok linea => forEach_describir resto (console_log consola linea)
      | Throw e => (Throw e, consola)
      end
  end.

Definition Objeto_listar `{Runtime} (figuras : list Objeto)
    (consola : list string) : result unit * list string :=
  forEach_describir figuras (console_log consola "=== FIGURAS ===").

(** ** The factory, observed *)

(** [validarNumero] returns on [v]. *)
Definition pasa (v : JsValue) : bool :=
  (typeof v =? "number") && negb (menor_igual_cero v).

(** The first field of the kind, in the order its constructor validates,
    that the bag fails on. *)
Definition primer_rechazado (t : string) (p : gmap string JsValue)
  : option string :=
  List.find (fun c => negb (pasa (campo p c))) (campos_de t).

(** The dimensions an instance holds, in the order of [campos_de]. *)
Definition dimensiones (f : Figura) : list float :=
  match f with
  | Circulo _ _ radio => [radio]
  | Rectangulo _ _ ancho alto => [ancho; alto]
  | Pentagono _ _ lado | Hexagono _ _ lado => [lado]
  | Figura3DAdapter (Cubo _ lado) _ => [lado]
  | Figura3DAdapter (Esfera _ radio) _ => [radio]
  end.

(** ** The factory on any second argument

    [FiguraGeometrica.crear(tipo, parametros)] where [parametros] need not
    be an object.  On [undefined], which is also the argument left out, and
    on [null], reading a field throws the engine's [TypeError], with the
    engine's message; every other value reads as an object, a primitive as
    one without the fields.  The switch reads [parametros] only in its six
    cases. *)
Inductive Bolsa : Type :=
| SinBolsa
| ConCampos (parametros : gmap string JsValue).

Definition FiguraGeometrica_crear `{Runtime} (tipo : JsValue)
    (parametros : Bolsa) : M Figura :=
  match parametros with
  | ConCampos p => crear tipo p
  | SinBolsa =>
      match tipo with
      | JsString t =>
          if (t =? "circulo") || (t =? "rectangulo") || (t =? "pentagono")
             || (t =? "hexagono") || (t =? "cubo") || (t =? "esfera")
          then throw (TypeError "Cannot read properties of undefined")
          else throw UnknownKind
      | _ => throw UnknownKind
      end
  end.

(** ** The script

    The statements after the class declarations, run from no draws and an
    empty console.  A console entry is the argument list of one
    [console.log] call. *)
Inductive Argumento : Type :=
| Texto (s : string)
| Booleano (b : bool).

Record Estado : Type := { sorteos : nat; salida : list (list Argumento) }.

Definition Programa (A : Type) : Type := Estado -> result A * Estado.

#[global] Instance Programa_ret : MRet Programa := fun A a st => (Ok a, st).
#[global] Instance Programa_bind : MBind Programa := fun A B f m st =>
  match m st with
  | (Ok a, st') => f a st'
  | (Throw e, st') => (Throw e, st')
  end.

Definition construir {A : Type} (m : M A) : Programa A :=
  fun st =>
    let '(r, k) := m (sorteos st) in
    (r, {| sorteos := k; salida := salida st |}).

Definition evaluar {A : Type} (r : result A) : Programa A := fun st => (r, st).

Definition log (argumentos : list Argumento) : Programa unit :=
  fun st =>
    (Ok tt, {| sorteos := sorteos st; salida := salida st ++ [argumentos] |}).

Definition log_listar `{Runtime} (c : ColeccionFiguras) : Programa unit :=
  fun st =>
    (Ok tt, {| sorteos := sorteos st;
               salida := salida st ++ map (fun l => [Texto l]) (listar c []) |}).

Definition demostracion `{Runtime} : Programa unit :=
  _ ← log [Texto "
🚀 SISTEMA EXTENDIDO DE FIGURAS 
"];
  let coleccion := new_ColeccionFiguras in
  circulo ← construir (crear (JsString "circulo") {[ "radio" := JsNumber 5 ]});
  pentagono ← construir (crear (JsString "pentagono") {[ "lado" := JsNumber 4 ]});
  hexagono ← construir (crear (JsString "hexagono") {[ "lado" := JsNumber 6 ]});
  cubo ← construir (crear (JsString "cubo") {[ "lado" := JsNumber 3 ]});
  esfera ← construir (crear (JsString "esfera") {[ "radio" := JsNumber 4 ]});
  let coleccion := agregar coleccion circulo in
  let coleccion := agregar coleccion pentagono in
  let coleccion := agregar coleccion hexagono in
  let coleccion := agregar coleccion cubo in
  let coleccion := agregar coleccion esfera in
  _ ← log_listar coleccion;
  _ ← log [Texto "
🔍 Similitud entre figuras:"];
  tipo ← evaluar (compararSimilitud circulo pentagono None);
  _ ← log [Texto "Círculo ~ Pentágono (tipo):"; Booleano tipo];
  area ← evaluar (compararSimilitud pentagono hexagono (Some SimilitudArea));
  _ ← log [Texto "Pentágono ~ Hexágono (área):"; Booleano area];
  _ ← log [Texto "
🖼️ DIBUJOS ASCII:"];
  _ ← log [Texto (dibujarASCII circulo)];
  _ ← log [Texto (dibujarASCII hexagono)];
  _ ← log [Texto (dibujarASCII esfera)];
  log [Texto "
✅ Sistema extendido ejecutado con éxito"].

Definition estado_inicial : Estado := {| sorteos := 0; salida := [] |}.

(** ** The real number behind a Number

    The statements on the accuracy of [**] speak of the real number a finite
    Number denotes, [(-1)^s * m * 2^e], and of the real power
    [Rpower x y = exp (y * ln x)].  ECMA-262 asks of [x ** y] an
    approximation of the real power and fixes no error bound: the bound is
    a premise of the statements. *)
Definition valor_real (x : float) : R :=
  match Prim2SF x with
  | S754_finite s m e =>
      ((if s then -1 else 1) * IZR (Z.pos m) * powerRZ 2 e)%R
  | _ => 0%R
  end.

(** [a] is within the relative error [d] of [b]. *)
Definition cerca (d a b : R) : Prop := (Rabs (a - b) <= d * b)%R.

(** The engine's [x ** y] is within the relative error [eps] of the real
    power of a positive base; below [eps = 1] this makes [x ** y] a finite
    positive Number. *)
Definition potencia_precisa `{Runtime} (eps : R) (x y : float) : Prop :=
  cerca eps (valor_real (exponentiate x y))
    (Rpower (valor_real x) (valor_real y)).

(** * Properties *)

(** ** IEEE-754 binary64 arithmetic *)
Module IEEE.

Lemma digits2_size (p : positive) : digits2_pos p = Pos.size p.
Proof. induction p; simpl; congruence. Qed.

Lemma digits2_lower (p : positive) : (2 ^ (Z.pos (digits2_pos p) - 1) <= Z.pos p)%Z.
Proof.
  rewrite digits2_size.
  pose proof (Pos.size_le p) as H.
  assert (Z.pos (2 ^ Pos.size p) <= Z.pos p~0)%Z as H' by exact H.
  rewrite Pos2Z.inj_pow in H'.
  replace (Z.pos (Pos.size p)) with (Z.succ (Z.pos (Pos.size p) - 1)) in H' by lia.
  rewrite Z.pow_succ_r in H' by lia. lia.
Qed.

Lemma digits2_upper (p : positive) : (Z.pos p < 2 ^ Z.pos (digits2_pos p))%Z.
Proof.
  rewrite digits2_size.
  pose proof (Pos.size_gt p) as H.
  assert (Z.pos p < Z.pos (2 ^ Pos.size p))%Z as H' by exact H.
  now rewrite Pos2Z.inj_pow in H'.
Qed.

Lemma iter_pos_nat {A} (f : A -> A) (p : positive) (x : A) :
  SpecFloat.iter_pos f p x = Nat.iter (Pos.to_nat p) f x.
Proof.
  revert x; induction p as [p IH | p IH |]; intros x; cbn [SpecFloat.iter_pos].
  - rewrite !IH, Pos2Nat.inj_xI.
    replace (S (2 * Pos.to_nat p)) with (Pos.to_nat p + (Pos.to_nat p + 1))%nat by lia.
    rewrite !Nat.iter_add. simpl. reflexivity.
  - rewrite !IH, Pos2Nat.inj_xO.
    replace (2 * Pos.to_nat p)%nat with (Pos.to_nat p + Pos.to_nat p)%nat by lia.
    now rewrite Nat.iter_add.
  - reflexivity.
Qed.

Lemma shr_1_m (r : shr_record) :
  (0 <= shr_m r)%Z -> shr_m (shr_1 r) = Z.div2 (shr_m r).
Proof. destruct r as [[|[p|p|]|p] b s]; simpl; intros; try reflexivity; lia. Qed.

Lemma shr_iter_m (n : nat) (r : shr_record) :
  (0 <= shr_m r)%Z -> shr_m (Nat.iter n shr_1 r) = (shr_m r / 2 ^ Z.of_nat n)%Z.
Proof.
  intros Hr. induction n as [|n IH].
  - simpl. now rewrite Z.div_1_r.
  - rewrite Nat2Z.inj_succ, Z.pow_succ_r by lia. simpl.
    rewrite shr_1_m; rewrite IH.
    + rewrite Z.div2_div, Z.div_div by lia. f_equal. lia.
    + apply Z.div_pos; lia.
Qed.


Lemma shr_spec (r : shr_record) (e n : Z) :
  (0 <= shr_m r)%Z ->
  exists r', shr r e n = (r', (e + Z.max 0 n)%Z)
             /\ shr_m r' = (shr_m r / 2 ^ Z.max 0 n)%Z.
Proof.
  intros Hr. destruct n as [|p|p]; simpl shr.
  - exists r. rewrite Z.add_0_r. split; [reflexivity|]. simpl. now rewrite Z.div_1_r.
  - exists (SpecFloat.iter_pos shr_1 p r). split.
    + f_equal; lia.
    + rewrite iter_pos_nat, shr_iter_m by assumption.
      rewrite positive_nat_Z. reflexivity.
  - exists r. split; [f_equal; lia|].
    replace (Z.max 0 (Z.neg p)) with 0%Z by lia. simpl. now rewrite Z.div_1_r.
Qed.

Lemma shr_record_of_loc_m (m : Z) (l : location) : shr_m (shr_record_of_loc m l) = m.
Proof. destruct l as [|[]]; reflexivity. Qed.

Lemma round_nearest_even_bounds (m : Z) (l : location) :
  (m <= round_nearest_even m l <= m + 1)%Z.
Proof. destruct l as [|[]]; simpl; try destruct (Z.even m); lia. Qed.

Lemma binary_round_aux_spec (s : bool) (m e : Z) (l : location) :
  (0 <= m)%Z ->
  let k1 := desplazamiento (Zdigits2 m) e in
  exists m2, (m / 2 ^ k1 <= m2 <= m / 2 ^ k1 + 1)%Z /\
    let e' := (e + k1)%Z in
    let k2 := desplazamiento (Zdigits2 m2) e' in
    binary_round_aux prec emax s m e l =
      match (m2 / 2 ^ k2)%Z with
      | Z0 => S754_zero s
      | Zpos p => if (e' + k2 <=? emax - prec)%Z
                  then S754_finite s p (e' + k2) else S754_infinity s
      | Zneg _ => S754_nan
      end.
Proof.
  intros Hm. cbv zeta. unfold desplazamiento, binary_round_aux, shr_fexp.
  destruct (shr_spec (shr_record_of_loc m l) e
              (fexp prec emax (Zdigits2 m + e) - e)) as (r1 & E1 & M1).
  { now rewrite shr_record_of_loc_m. }
  rewrite E1. rewrite shr_record_of_loc_m in M1.
  set (m2 := round_nearest_even (shr_m r1) (loc_of_shr_record r1)).
  exists m2. split.
  { unfold m2. rewrite <- M1. apply round_nearest_even_bounds. }
  assert (0 <= m2)%Z as Hm2.
  { pose proof (round_nearest_even_bounds (shr_m r1) (loc_of_shr_record r1)).
    assert (0 <= shr_m r1)%Z by (rewrite M1; apply Z.div_pos; lia). unfold m2; lia. }
  destruct (shr_spec (shr_record_of_loc m2 loc_Exact) (e + Z.max 0 (fexp prec emax (Zdigits2 m + e) - e))
              (fexp prec emax (Zdigits2 m2 + (e + Z.max 0 (fexp prec emax (Zdigits2 m + e) - e)))
               - (e + Z.max 0 (fexp prec emax (Zdigits2 m + e) - e)))) as (r2 & E2 & M2).
  { simpl; lia. }
  rewrite E2, M2. reflexivity.
Qed.


Lemma Zdigits2_bounds (m : Z) :
  (0 < m)%Z ->
  (1 <= Zdigits2 m /\ 2 ^ (Zdigits2 m - 1) <= m < 2 ^ Zdigits2 m)%Z.
Proof.
  destruct m as [|p|p]; try lia. intros _. simpl.
  pose proof (digits2_lower p). pose proof (digits2_upper p). lia.
Qed.

Lemma Zdigits2_le (a k : Z) : (0 < a < 2 ^ k)%Z -> (0 <= k)%Z -> (Zdigits2 a <= k)%Z.
Proof.
  intros [Ha Hk] Hk0. destruct (Zdigits2_bounds a Ha) as (H1 & H2 & H3).
  destruct (Z.le_gt_cases (Zdigits2 a) k) as [|Hgt]; [assumption|exfalso].
  assert (2 ^ k <= 2 ^ (Zdigits2 a - 1))%Z by (apply Z.pow_le_mono_r; lia). lia.
Qed.

Lemma Zdigits2_mono (a b : Z) : (0 < a <= b)%Z -> (Zdigits2 a <= Zdigits2 b)%Z.
Proof.
  intros [Ha Hab]. destruct (Zdigits2_bounds a Ha) as (_ & _ & H3).
  destruct (Zdigits2_bounds b ltac:(lia)) as (Hb1 & Hb2 & Hb3).
  apply Zdigits2_le; lia.
Qed.

Lemma div_pow2_pos (m d k : Z) :
  (2 ^ (d - 1) <= m)%Z -> (0 <= k <= d - 1)%Z -> (1 <= m / 2 ^ k)%Z.
Proof.
  intros Hm Hk. apply Z.div_le_lower_bound; [apply Z.pow_pos_nonneg; lia|].
  assert (2 ^ k <= 2 ^ (d - 1))%Z by (apply Z.pow_le_mono_r; lia). lia.
Qed.

Lemma div_pow2_lt (m d k : Z) :
  (0 <= m < 2 ^ d)%Z -> (0 <= k <= d)%Z -> (m / 2 ^ k < 2 ^ (d - k))%Z.
Proof.
  intros Hm Hk. apply Z.div_lt_upper_bound; [apply Z.pow_pos_nonneg; lia|].
  rewrite <- Z.pow_add_r by lia. replace (k + (d - k))%Z with d by lia. lia.
Qed.

Lemma binary_round_aux_sign (s : bool) (m e : Z) (l : location) :
  (0 <= m)%Z -> con_signo s (binary_round_aux prec emax s m e l).
Proof.
  intros Hm. destruct (binary_round_aux_spec s m e l Hm) as (m2 & Hm2 & ->).
  cbv zeta.
  set (k2 := desplazamiento _ _).
  assert (0 <= m2 / 2 ^ k2)%Z as H.
  { apply Z.div_pos; [|apply Z.pow_pos_nonneg; unfold k2, desplazamiento; lia].
    assert (0 <= m / 2 ^ desplazamiento (Zdigits2 m) e)%Z; [|lia].
    apply Z.div_pos; [lia|apply Z.pow_pos_nonneg; unfold desplazamiento; lia]. }
  destruct (m2 / 2 ^ k2)%Z; simpl; try reflexivity; try lia.
  destruct (_ <=? _)%Z; reflexivity.
Qed.

Lemma desplazamiento_lt (d e : Z) :
  (1 <= d)%Z -> (-1073 <= d + e)%Z -> (0 <= desplazamiento d e <= d - 1)%Z.
Proof. unfold desplazamiento, fexp, emin, prec, emax. lia. Qed.

Lemma binary_round_aux_pos (s : bool) (m e : Z) (l : location) :
  (0 < m)%Z -> (-1073 <= Zdigits2 m + e)%Z ->
  no_nulo s (binary_round_aux prec emax s m e l).
Proof.
  intros Hm Hd.
  destruct (binary_round_aux_spec s m e l ltac:(lia)) as (m2 & Hm2 & ->).
  cbv zeta.
  destruct (Zdigits2_bounds m Hm) as (D1 & D2 & D3).
  pose proof (desplazamiento_lt _ _ D1 Hd) as K1.
  set (k1 := desplazamiento (Zdigits2 m) e) in *.
  pose proof (div_pow2_pos m _ k1 D2 K1) as M1.
  destruct (Zdigits2_bounds m2 ltac:(lia)) as (E1 & E2 & E3).
  assert (-1073 <= Zdigits2 m2 + (e + k1))%Z as Hd2.
  { destruct (Z.eq_dec k1 0%Z) as [K0|K0].
    - rewrite K0 in *. rewrite Z.pow_0_r, Z.div_1_r in Hm2.
      pose proof (Zdigits2_mono m m2 ltac:(lia)). lia.
    - unfold k1, desplazamiento, fexp, emin, prec, emax in *. lia. }
  pose proof (desplazamiento_lt _ _ E1 Hd2) as K2.
  set (k2 := desplazamiento (Zdigits2 m2) (e + k1)) in *.
  pose proof (div_pow2_pos m2 _ k2 E2 K2) as M2.
  destruct (m2 / 2 ^ k2)%Z; simpl; try lia.
  destruct (_ <=? _)%Z; reflexivity.
Qed.

Lemma binary_round_aux_finite (s : bool) (m e : Z) (l : location) :
  (0 < m)%Z -> (-1073 <= Zdigits2 m + e <= 1023)%Z -> (e <= 971)%Z ->
  finito_no_nulo s (binary_round_aux prec emax s m e l).
Proof.
  intros Hm Hd He.
  pose proof (binary_round_aux_pos s m e l Hm ltac:(lia)) as Hpos.
  destruct (binary_round_aux_spec s m e l ltac:(lia)) as (m2 & Hm2 & E).
  rewrite E in *. clear E. cbv zeta in *.
  destruct (Zdigits2_bounds m Hm) as (D1 & D2 & D3).
  pose proof (desplazamiento_lt (Zdigits2 m) e D1 ltac:(lia)) as K1.
  set (k1 := desplazamiento (Zdigits2 m) e) in *.
  pose proof (div_pow2_pos m _ k1 D2 K1) as M1.
  pose proof (div_pow2_lt m (Zdigits2 m) k1 ltac:(lia) ltac:(lia)) as M1'.
  assert (Zdigits2 m2 <= Zdigits2 m - k1 + 1)%Z as Hd2.
  { apply Zdigits2_le; [|lia]. split; [lia|].
    replace (Zdigits2 m - k1 + 1)%Z with (Z.succ (Zdigits2 m - k1)) by lia.
    rewrite Z.pow_succ_r by lia.
    assert (0 < 2 ^ (Zdigits2 m - k1))%Z by (apply Z.pow_pos_nonneg; lia). lia. }
  set (k2 := desplazamiento (Zdigits2 m2) (e + k1)) in *.
  assert (e + k1 + k2 <= 971)%Z as Hfin.
  { unfold k2, k1, desplazamiento, fexp, emin, prec, emax in *. lia. }
  destruct (m2 / 2 ^ k2)%Z; simpl in *; try lia; try contradiction.
  unfold emax, prec.
  destruct (Z.leb_spec (e + k1 + k2) (1024 - 53)); [reflexivity|lia].
Qed.


Lemma Zdigits2_mul_lower (a b : Z) :
  (0 < a)%Z -> (0 < b)%Z -> (Zdigits2 a + Zdigits2 b - 1 <= Zdigits2 (a * b))%Z.
Proof.
  intros Ha Hb.
  destruct (Zdigits2_bounds a Ha) as (A1 & A2 & _).
  destruct (Zdigits2_bounds b Hb) as (B1 & B2 & _).
  destruct (Zdigits2_bounds (a * b) ltac:(lia)) as (C1 & _ & C3).
  assert (2 ^ (Zdigits2 a - 1 + (Zdigits2 b - 1)) <= a * b)%Z as H.
  { rewrite Z.pow_add_r by lia. apply Z.mul_le_mono_nonneg; try lia;
      apply Z.pow_nonneg; lia. }
  assert (Zdigits2 a - 1 + (Zdigits2 b - 1) < Zdigits2 (a * b))%Z; [|lia].
  apply (Z.pow_lt_mono_r_iff 2); lia.
Qed.

Lemma Zdigits2_mul_upper (a b : Z) :
  (0 < a)%Z -> (0 < b)%Z -> (Zdigits2 (a * b) <= Zdigits2 a + Zdigits2 b)%Z.
Proof.
  intros Ha Hb.
  destruct (Zdigits2_bounds a Ha) as (A1 & _ & A3).
  destruct (Zdigits2_bounds b Hb) as (B1 & _ & B3).
  apply Zdigits2_le; [|lia]. split; [lia|].
  rewrite Z.pow_add_r by lia. apply Z.mul_lt_mono_nonneg; lia.
Qed.

(** A valid finite binary64 value is at least [2^-1074]. *)
Lemma bounded_digits (m : positive) (e : Z) :
  bounded prec emax m e = true ->
  (e = Z.max (Z.pos (digits2_pos m) + e - 53) (-1074) /\ e <= 971)%Z.
Proof.
  unfold bounded, canonical_mantissa, fexp, emin, prec, emax.
  rewrite andb_true_iff, Z.eqb_eq, Z.leb_le. lia.
Qed.

(** ** Classification of a float by comparison with zero *)

Lemma Prim2SF_zero : Prim2SF 0%float = S754_zero false.
Proof. reflexivity. Qed.

Lemma Prim2SF_infinity : Prim2SF infinity = S754_infinity false.
Proof. reflexivity. Qed.

Lemma Prim2SF_one : Prim2SF 1%float = S754_finite false 4503599627370496 (-52).
Proof. reflexivity. Qed.

Lemma no_negativo_spec (x : float) :
  no_negativo x <->
  match Prim2SF x with
  | S754_zero _ | S754_infinity false | S754_finite false _ _ => True
  | _ => False
  end.
Proof.
  unfold no_negativo. rewrite FloatAxioms.leb_spec, Prim2SF_zero.
  destruct (Prim2SF x) as [[]|[]| |[] m e]; cbv [SFleb SFltb SFcompare no_nulo finito_no_nulo con_signo andb]; intuition congruence.
Qed.

Lemma positivo_spec (x : float) : positivo x <-> no_nulo false (Prim2SF x).
Proof.
  unfold positivo. rewrite FloatAxioms.ltb_spec, Prim2SF_zero.
  destruct (Prim2SF x) as [[]|[]| |[] m e]; cbv [SFleb SFltb SFcompare no_nulo finito_no_nulo con_signo andb]; intuition congruence.
Qed.

Lemma finito_positivo_spec (x : float) :
  finito_positivo x <-> finito_no_nulo false (Prim2SF x).
Proof.
  unfold finito_positivo. rewrite !FloatAxioms.ltb_spec, Prim2SF_zero, Prim2SF_infinity.
  destruct (Prim2SF x) as [[]|[]| |[] m e]; cbv [SFleb SFltb SFcompare no_nulo finito_no_nulo con_signo andb]; intuition congruence.
Qed.

Lemma finito_positivo_positivo (x : float) : finito_positivo x -> positivo x.
Proof.
  rewrite finito_positivo_spec, positivo_spec.
  destruct (Prim2SF x) as [[]|[]| |[] m e]; cbv [SFleb SFltb SFcompare no_nulo finito_no_nulo con_signo andb]; intuition congruence.
Qed.

Lemma positivo_no_negativo (x : float) : positivo x -> no_negativo x.
Proof.
  rewrite no_negativo_spec, positivo_spec.
  destruct (Prim2SF x) as [[]|[]| |[] m e]; cbv [SFleb SFltb SFcompare no_nulo finito_no_nulo con_signo andb]; intuition congruence.
Qed.

Lemma Prim2SF_nan (x : float) : Prim2SF x = S754_nan -> x = nan.
Proof. intros H. apply Prim2SF_inj. now rewrite H. Qed.

Lemma positivo_no_leb (x : float) : positivo x -> (x <=? 0)%float = false.
Proof.
  rewrite positivo_spec, FloatAxioms.leb_spec, Prim2SF_zero.
  now destruct (Prim2SF x) as [[]|[]| |[] m e].
Qed.

Lemma no_leb_positivo (x : float) :
  x <> nan -> (x <=? 0)%float = false -> positivo x.
Proof.
  intros Hnan. pose proof (Prim2SF_nan x) as N.
  rewrite positivo_spec, FloatAxioms.leb_spec, Prim2SF_zero.
  destruct (Prim2SF x) as [[]|[]| |[] m e]; try easy.
  intros _. now destruct Hnan; apply N.
Qed.

(** ** Products, sums and quotients *)

Lemma con_signo_no_negativo' (x : spec_float) :
  con_signo false x ->
  match x with
  | S754_zero _ | S754_infinity false | S754_finite false _ _ => True
  | _ => False
  end.
Proof. destruct x as [[]|[]| |[] m e]; simpl; intuition congruence. Qed.

Lemma mul_no_negativo (c y : float) :
  finito_positivo c -> no_negativo y -> no_negativo (c * y)%float.
Proof.
  rewrite finito_positivo_spec, !no_negativo_spec, FloatAxioms.mul_spec. unfold SF64mul.
  destruct (Prim2SF c) as [[]|[]| |[] mc ec]; simpl; try easy.
  destruct (Prim2SF y) as [[]|[]| |[] my ey]; simpl; try easy.
  intros _ _. apply con_signo_no_negativo', binary_round_aux_sign. lia.
Qed.

Lemma div_eucl_nonneg (a b : Z) : (0 <= a)%Z -> (0 < b)%Z -> (0 <= fst (Z.div_eucl a b))%Z.
Proof.
  intros Ha Hb. change (fst (Z.div_eucl a b)) with (a / b)%Z.
  apply Z.div_pos; lia.
Qed.

Lemma div_no_negativo (n d : float) :
  no_negativo n -> finito_positivo d -> no_negativo (n / d)%float.
Proof.
  rewrite finito_positivo_spec, !no_negativo_spec, FloatAxioms.div_spec. unfold SF64div.
  destruct (Prim2SF d) as [[]|[]| |[] md ed]; simpl; try easy;
  destruct (Prim2SF n) as [[]|[]| |[] mn en]; simpl; try easy.
  intros _ _. unfold SFdiv_core_binary.
  set (m' := match _ with Z0 => _ | Z.pos _ => _ | Z.neg _ => _ end).
  assert (0 <= m')%Z as Hm'.
  { unfold m'. destruct (_ - _ - _)%Z; try lia.
    apply Z.shiftl_nonneg. lia. }
  pose proof (div_eucl_nonneg m' (Z.pos md) Hm' ltac:(lia)) as Hq.
  destruct (Z.div_eucl m' (Z.pos md)) as [q r]. simpl in Hq.
  apply con_signo_no_negativo', binary_round_aux_sign. exact Hq.
Qed.

Lemma SFleb_one_exp (s : bool) (mc : positive) (ec : Z) :
  SFleb (S754_finite false 4503599627370496 (-52)) (S754_finite s mc ec) = true ->
  s = false /\ (-52 <= ec)%Z.
Proof.
  unfold SFleb, SFcompare. destruct s; [discriminate|].
  destruct (Z.compare_spec (-52) ec); intros; split; try reflexivity; try lia;
    discriminate.
Qed.

Lemma SFleb_exp_one (mc : positive) (ec : Z) :
  SFleb (S754_finite false mc ec) (S754_finite false 4503599627370496 (-52)) = true ->
  (ec <= -52)%Z.
Proof.
  unfold SFleb, SFcompare.
  destruct (Z.compare_spec ec (-52)); intros; try lia; discriminate.
Qed.

Lemma mul_ge1_positivo (c x : float) :
  (1 <=? c)%float = true -> positivo x -> positivo (c * x)%float.
Proof.
  rewrite FloatAxioms.leb_spec, Prim2SF_one, !positivo_spec, FloatAxioms.mul_spec. unfold SF64mul.
  pose proof (Prim2SF_valid c) as Vc. pose proof (Prim2SF_valid x) as Vx.
  intros Hc Hx.
  destruct (Prim2SF c) as [[]|[]| |sc mc ec]; try discriminate Hc;
  destruct (Prim2SF x) as [[]|[]| |[] mx ex]; try easy.
  - simpl. now destruct sc.
  - apply SFleb_one_exp in Hc as [-> Hec]. simpl.
    apply bounded_digits in Vc, Vx.
    apply binary_round_aux_pos; [lia|].
    pose proof (Zdigits2_mul_lower (Z.pos mc) (Z.pos mx) ltac:(lia) ltac:(lia)) as H.
    simpl Zdigits2 in *. lia.
Qed.

(** Multiplying a positive value of at most 1 by 4 neither underflows to
    zero nor overflows. *)
Lemma mul_4_finito (t : float) :
  positivo t -> (t <=? 1)%float = true -> finito_positivo (4 * t)%float.
Proof.
  rewrite FloatAxioms.leb_spec, Prim2SF_one, positivo_spec, finito_positivo_spec, FloatAxioms.mul_spec.
  unfold SF64mul.
  pose proof (Prim2SF_valid t) as Vt.
  change (Prim2SF 4) with (S754_finite false 4503599627370496 (-50)).
  intros Ht H1.
  destruct (Prim2SF t) as [[]|[]| |[] mt et]; try easy.
  apply SFleb_exp_one in H1. apply bounded_digits in Vt. simpl.
  pose proof (Zdigits2_mul_lower 4503599627370496 (Z.pos mt) ltac:(lia) ltac:(lia)) as L.
  pose proof (Zdigits2_mul_upper 4503599627370496 (Z.pos mt) ltac:(lia) ltac:(lia)) as U.
  change (Zdigits2 4503599627370496) with 53%Z in *. simpl Zdigits2 in *.
  apply binary_round_aux_finite; simpl Zdigits2; lia.
Qed.


Lemma shl_align_spec (m : positive) (e e' : Z) :
  exists m', shl_align m e e' = (m', Z.min e e')
             /\ Z.pos m' = (Z.pos m * 2 ^ (e - Z.min e e'))%Z.
Proof.
  unfold shl_align. destruct (e' - e)%Z as [|d|d] eqn:E.
  - exists m. replace (Z.min e e') with e by lia.
    rewrite Z.sub_diag. split; [reflexivity|]. simpl; lia.
  - exists m. replace (Z.min e e') with e by lia.
    rewrite Z.sub_diag. split; [reflexivity|]. simpl; lia.
  - exists (shift_pos d m). replace (Z.min e e') with e' by lia. split; [reflexivity|].
    rewrite shift_pos_correct. replace (e - e')%Z with (Z.pos d) by lia.
    rewrite Z.pow_pos_fold. lia.
Qed.

Lemma Zdigits2_shift (a k : Z) :
  (0 < a)%Z -> (0 <= k)%Z -> (Zdigits2 a + k <= Zdigits2 (a * 2 ^ k))%Z.
Proof.
  intros Ha Hk. destruct (Zdigits2_bounds a Ha) as (A1 & A2 & _).
  assert (0 < 2 ^ k)%Z as Hp by (apply Z.pow_pos_nonneg; lia).
  destruct (Zdigits2_bounds (a * 2 ^ k) ltac:(lia)) as (C1 & _ & C3).
  assert (2 ^ (Zdigits2 a - 1 + k) <= a * 2 ^ k)%Z as H.
  { rewrite Z.pow_add_r by lia. apply Z.mul_le_mono_nonneg_r; lia. }
  assert (Zdigits2 a - 1 + k < Zdigits2 (a * 2 ^ k))%Z; [|lia].
  apply (Z.pow_lt_mono_r_iff 2); [lia|lia|].
  exact (Z.le_lt_trans _ _ _ H C3).
Qed.

Lemma binary_round_pos (s : bool) (m : positive) (e : Z) :
  (-1073 <= Z.pos (digits2_pos m) + e)%Z ->
  no_nulo s (binary_round prec emax s m e).
Proof.
  intros Hd. unfold binary_round.
  destruct (shl_align_spec m e (fexp prec emax (Z.pos (digits2_pos m) + e)))
    as (mz & -> & Hmz).
  apply binary_round_aux_pos; [lia|]. rewrite Hmz.
  pose proof (Zdigits2_shift (Z.pos m)
                (e - Z.min e (fexp prec emax (Z.pos (digits2_pos m) + e)))
                ltac:(lia) ltac:(lia)) as H.
  simpl Zdigits2 in H at 1. lia.
Qed.

Lemma add_positivo (a b : float) :
  positivo a -> positivo b -> positivo (a + b)%float.
Proof.
  rewrite !positivo_spec, FloatAxioms.add_spec. unfold SF64add.
  pose proof (Prim2SF_valid a) as Va.
  destruct (Prim2SF a) as [[]|[]| |[] ma ea]; try easy;
  destruct (Prim2SF b) as [[]|[]| |[] mb eb]; try easy.
  intros _ _. unfold SFadd, cond_Zopp.
  destruct (shl_align_spec ma ea (Z.min ea eb)) as (ma' & -> & Ha).
  destruct (shl_align_spec mb eb (Z.min ea eb)) as (mb' & -> & Hb).
  cbn [fst]. apply bounded_digits in Va.
  change (Z.pos ma' + Z.pos mb')%Z with (Z.pos (ma' + mb')).
  cbn [binary_normalize]. apply binary_round_pos.
  change (Z.pos (digits2_pos (ma' + mb'))) with (Zdigits2 (Z.pos (ma' + mb'))).
  pose proof (Zdigits2_mono (Z.pos ma') (Z.pos (ma' + mb')) ltac:(lia)) as M.
  rewrite Ha in M at 1.
  pose proof (Zdigits2_shift (Z.pos ma) (ea - Z.min ea (Z.min ea eb))
                ltac:(lia) ltac:(lia)) as H.
  simpl Zdigits2 in H at 1.
  set (X := Zdigits2 (Z.pos ma * _)) in *. clearbody X.
  set (D := Zdigits2 (Z.pos (ma' + mb'))) in *. clearbody D.
  clear Ha Hb.
  assert (-1074 <= ea)%Z by lia.
  assert (Z.min ea (Z.min ea eb) = Z.min ea eb)%Z by lia.
  lia.
Qed.

(** Dividing by a zero gives an infinity or a NaN, which no strict interval
    of finite bounds contains. *)
Lemma div_cero_fuera (a b lo hi : float) :
  (b =? 0)%float = true -> (hi <? infinity)%float = true ->
  (lo <? a / b)%float && (a / b <? hi)%float = false.
Proof.
  rewrite FloatAxioms.eqb_spec, !FloatAxioms.ltb_spec, FloatAxioms.div_spec, Prim2SF_zero, Prim2SF_infinity.
  unfold SF64div.
  destruct (Prim2SF b) as [[]|[]| |[] mb eb]; try easy;
  destruct (Prim2SF a) as [[]|[]| |[] ma ea]; simpl SFdiv; intros _;
  destruct (Prim2SF lo) as [[]|[]| |[] ml el];
  destruct (Prim2SF hi) as [[]|[]| |[] mh eh]; try easy.
Qed.

(** ** Magnitudes

    Lower and upper bounds on [d + e] through rounding, products and
    quotients. *)

Lemma Zdigits2_ge (a k : Z) : (0 <= k)%Z -> (2 ^ k <= a)%Z -> (k + 1 <= Zdigits2 a)%Z.
Proof.
  intros Hk Ha.
  assert (0 < 2 ^ k)%Z by (apply Z.pow_pos_nonneg; lia).
  destruct (Zdigits2_bounds a ltac:(lia)) as (A1 & _ & A3).
  assert (k < Zdigits2 a)%Z; [|lia].
  apply (Z.pow_lt_mono_r_iff 2); [lia|lia|]. lia.
Qed.

Lemma Zdigits2_div_pow2 (m d k : Z) :
  (2 ^ (d - 1) <= m)%Z -> (0 <= k <= d - 1)%Z -> (d - k <= Zdigits2 (m / 2 ^ k))%Z.
Proof.
  intros Hm Hk.
  assert (2 ^ (d - 1 - k) <= m / 2 ^ k)%Z as H.
  { apply Z.div_le_lower_bound; [apply Z.pow_pos_nonneg; lia|].
    rewrite <- Z.pow_add_r by lia. now replace (k + (d - 1 - k))%Z with (d - 1)%Z by lia. }
  pose proof (Zdigits2_ge _ (d - 1 - k) ltac:(lia) H). lia.
Qed.

(** Rounding does not lower the magnitude. *)
Lemma binary_round_aux_al_menos (m e : Z) (l : location) :
  (0 < m)%Z -> (-1073 <= Zdigits2 m + e)%Z ->
  al_menos (Zdigits2 m + e) (binary_round_aux prec emax false m e l).
Proof.
  intros Hm Hd.
  destruct (binary_round_aux_spec false m e l ltac:(lia)) as (m2 & Hm2 & ->).
  cbv zeta.
  destruct (Zdigits2_bounds m Hm) as (D1 & D2 & D3).
  pose proof (desplazamiento_lt _ _ D1 Hd) as K1.
  set (k1 := desplazamiento (Zdigits2 m) e) in *.
  pose proof (div_pow2_pos m _ k1 D2 K1) as M1.
  pose proof (Zdigits2_div_pow2 m _ k1 D2 K1) as G1.
  pose proof (Zdigits2_mono (m / 2 ^ k1) m2 ltac:(lia)) as G2.
  destruct (Zdigits2_bounds m2 ltac:(lia)) as (E1 & E2 & E3).
  assert (-1073 <= Zdigits2 m2 + (e + k1))%Z as Hd2 by lia.
  pose proof (desplazamiento_lt _ _ E1 Hd2) as K2.
  set (k2 := desplazamiento (Zdigits2 m2) (e + k1)) in *.
  pose proof (div_pow2_pos m2 _ k2 E2 K2) as M2.
  pose proof (Zdigits2_div_pow2 m2 _ k2 E2 K2) as G3.
  set (X := Zdigits2 (m / 2 ^ k1)) in *. clearbody X.
  destruct (m2 / 2 ^ k2)%Z as [|p|p] eqn:Ep; simpl; try lia.
  destruct (_ <=? _)%Z; [|exact I]. simpl in G3. cbn [al_menos]. clear Ep Hm2 M1. lia.
Qed.

Lemma al_menos_no_nulo (k : Z) (x : spec_float) : al_menos k x -> no_nulo false x.
Proof. destruct x as [[]|[]| |[] m e]; simpl; easy. Qed.

(** A float at least a normal power of two. *)
Lemma leb_al_menos (c x : float) (mc : positive) (ec : Z) :
  Prim2SF c = S754_finite false mc ec -> (-1074 < ec)%Z ->
  (c <=? x)%float = true -> al_menos (53 + ec) (Prim2SF x).
Proof.
  intros Hc Hec. rewrite FloatAxioms.leb_spec, Hc.
  pose proof (Prim2SF_valid x) as V.
  destruct (Prim2SF x) as [[]|[]| |[] m e]; try easy.
  unfold SFleb, SFcompare. intros H. apply bounded_digits in V. simpl.
  destruct (Z.compare_spec ec e); try discriminate; lia.
Qed.

Lemma mul_al_menos (a b : Z) (x y : float) :
  al_menos a (Prim2SF x) -> al_menos b (Prim2SF y) -> (-1072 <= a + b)%Z ->
  al_menos (a + b - 1) (Prim2SF (x * y)).
Proof.
  rewrite FloatAxioms.mul_spec. unfold SF64mul.
  destruct (Prim2SF x) as [[]|[]| |[] mx ex]; try easy;
  destruct (Prim2SF y) as [[]|[]| |[] my ey]; try easy.
  simpl. intros Hx Hy Hab.
  pose proof (Zdigits2_mul_lower (Z.pos mx) (Z.pos my) ltac:(lia) ltac:(lia)) as L.
  change (Z.pos mx * Z.pos my)%Z with (Z.pos (mx * my)) in L.
  set (D := Zdigits2 (Z.pos (mx * my))) in *.
  simpl Zdigits2 in L.
  assert (-1073 <= D + (ex + ey))%Z as HD by lia.
  pose proof (binary_round_aux_al_menos (Z.pos (mx * my)) (ex + ey) loc_Exact
                ltac:(lia) HD) as H.
  fold D in H. clearbody D.
  destruct (binary_round_aux _ _ _ _ _ _) as [[]|[]| |[] m e]; simpl in *; try easy.
  lia.
Qed.


Lemma div_positivo (a b : Z) (n d : float) :
  al_menos a (Prim2SF n) -> a_lo_sumo b (Prim2SF d) -> (-1073 <= a - b)%Z ->
  positivo (n / d)%float.
Proof.
  rewrite positivo_spec, FloatAxioms.div_spec. unfold SF64div.
  destruct (Prim2SF n) as [[]|[]| |[] m1 e1]; try easy;
  destruct (Prim2SF d) as [[]|[]| |[] m2 e2]; try easy.
  cbn [al_menos a_lo_sumo SFdiv xorb]. intros Hn Hd Hab.
  unfold SFdiv_core_binary.
  set (d1 := Zdigits2 (Z.pos m1)). set (d2 := Zdigits2 (Z.pos m2)).
  assert (d1 = Z.pos (digits2_pos m1)) as Ed1 by reflexivity.
  assert (d2 = Z.pos (digits2_pos m2)) as Ed2 by reflexivity.
  destruct (Zdigits2_bounds (Z.pos m1) ltac:(lia)) as (A1 & A2 & A3).
  destruct (Zdigits2_bounds (Z.pos m2) ltac:(lia)) as (B1 & B2 & B3).
  fold d1 in A1, A2, A3. fold d2 in B1, B2, B3.
  set (e' := Z.min (fexp prec emax (d1 + e1 - (d2 + e2))) (e1 - e2)).
  set (s := (e1 - e2 - e')%Z).
  assert (0 <= s)%Z as Hs by (unfold s, e'; lia).
  set (m' := match s with Z0 => _ | Z.pos _ => _ | Z.neg _ => _ end).
  assert (m' = Z.pos m1 * 2 ^ s)%Z as Em'.
  { unfold m'. destruct s as [|p|p] eqn:Es; try lia.
    now rewrite Z.shiftl_mul_pow2. }
  assert (0 <= d1 + s - 1 - d2)%Z as Hk.
  { unfold s, e', fexp, emin, prec, emax. lia. }
  assert (2 ^ (d1 + s - 1 - d2) <= m' / Z.pos m2)%Z as Hq.
  { apply Z.div_le_lower_bound; [lia|]. rewrite Em'.
    assert (Z.pos m2 * 2 ^ (d1 + s - 1 - d2) <= 2 ^ d2 * 2 ^ (d1 + s - 1 - d2))%Z as H1.
    { apply Z.mul_le_mono_nonneg_r; [apply Z.pow_nonneg|]; lia. }
    rewrite <- Z.pow_add_r in H1 by lia.
    replace (d2 + (d1 + s - 1 - d2))%Z with (d1 - 1 + s)%Z in H1 by lia.
    rewrite Z.pow_add_r in H1 by lia.
    assert (2 ^ (d1 - 1) * 2 ^ s <= Z.pos m1 * 2 ^ s)%Z as H2.
    { apply Z.mul_le_mono_nonneg_r; [apply Z.pow_nonneg|]; lia. }
    lia. }
  pose proof (Zdigits2_ge _ _ Hk Hq) as Hdq.
  change (m' / Z.pos m2)%Z with (fst (Z.div_eucl m' (Z.pos m2))) in Hq, Hdq.
  destruct (Z.div_eucl m' (Z.pos m2)) as [q r]. cbn [fst] in Hq, Hdq.
  assert (0 < 2 ^ (d1 + s - 1 - d2))%Z by (apply Z.pow_pos_nonneg; lia).
  apply binary_round_aux_pos; [lia|].
  unfold s in Hdq. lia.
Qed.


Lemma binary_round_aux_a_lo_sumo (m e : Z) (l : location) :
  (0 < m)%Z -> (-1073 <= Zdigits2 m + e <= 1023)%Z -> (e <= 971)%Z ->
  a_lo_sumo (Zdigits2 m + e + 1) (binary_round_aux prec emax false m e l).
Proof.
  intros Hm Hd He.
  pose proof (binary_round_aux_finite false m e l Hm Hd He) as Hfin.
  destruct (binary_round_aux_spec false m e l ltac:(lia)) as (m2 & Hm2 & E).
  rewrite E in *. clear E. cbv zeta in *.
  destruct (Zdigits2_bounds m Hm) as (D1 & D2 & D3).
  pose proof (desplazamiento_lt (Zdigits2 m) e D1 ltac:(lia)) as K1.
  set (k1 := desplazamiento (Zdigits2 m) e) in *.
  pose proof (div_pow2_pos m _ k1 D2 K1) as M1.
  pose proof (div_pow2_lt m (Zdigits2 m) k1 ltac:(lia) ltac:(lia)) as M1'.
  assert (0 < 2 ^ (Zdigits2 m - k1))%Z as P1 by (apply Z.pow_pos_nonneg; lia).
  assert (Zdigits2 m2 <= Zdigits2 m - k1 + 1)%Z as Hd2.
  { apply Zdigits2_le; [|lia]. split; [lia|].
    replace (Zdigits2 m - k1 + 1)%Z with (Z.succ (Zdigits2 m - k1)) by lia.
    rewrite Z.pow_succ_r by lia. lia. }
  destruct (Zdigits2_bounds m2 ltac:(lia)) as (E1 & E2 & E3).
  assert (-1073 <= Zdigits2 m2 + (e + k1))%Z as Hd3.
  { pose proof (Zdigits2_div_pow2 m _ k1 D2 K1) as G1.
    pose proof (Zdigits2_mono (m / 2 ^ k1) m2 ltac:(lia)) as G2.
    set (X := Zdigits2 (m / 2 ^ k1)) in *. clearbody X. lia. }
  pose proof (desplazamiento_lt _ _ E1 Hd3) as K2.
  set (k2 := desplazamiento (Zdigits2 m2) (e + k1)) in *.
  pose proof (div_pow2_pos m2 _ k2 E2 K2) as M2.
  pose proof (div_pow2_lt m2 (Zdigits2 m2) k2 ltac:(lia) ltac:(lia)) as M2'.
  destruct (m2 / 2 ^ k2)%Z as [|p|p] eqn:Ep; cbn [finito_no_nulo] in Hfin;
    try contradiction.
  destruct (_ <=? _)%Z; [|contradiction]. cbn [a_lo_sumo].
  pose proof (Zdigits2_le (Z.pos p) (Zdigits2 m2 - k2) ltac:(lia) ltac:(lia)) as G.
  simpl Zdigits2 in G at 1. clear Ep Hm2 M1 M1' M2 M2' P1 D2 D3 E2 E3. lia.
Qed.

Lemma mul_4_a_lo_sumo (t : float) :
  positivo t -> (t <=? 1)%float = true -> a_lo_sumo 5 (Prim2SF (4 * t)).
Proof.
  rewrite FloatAxioms.leb_spec, Prim2SF_one, positivo_spec, FloatAxioms.mul_spec.
  unfold SF64mul.
  pose proof (Prim2SF_valid t) as Vt.
  change (Prim2SF 4) with (S754_finite false 4503599627370496 (-50)).
  intros Ht H1.
  destruct (Prim2SF t) as [[]|[]| |[] mt et]; try easy.
  apply SFleb_exp_one in H1. apply bounded_digits in Vt. cbn [SFmul xorb].
  pose proof (Zdigits2_mul_lower 4503599627370496 (Z.pos mt) ltac:(lia) ltac:(lia)) as L.
  pose proof (Zdigits2_mul_upper 4503599627370496 (Z.pos mt) ltac:(lia) ltac:(lia)) as U.
  change (Zdigits2 4503599627370496) with 53%Z in *.
  change (4503599627370496 * Z.pos mt)%Z with (Z.pos (4503599627370496 * mt)) in *.
  set (D := Zdigits2 (Z.pos (4503599627370496 * mt))) in *.
  simpl Zdigits2 in L, U.
  assert (-1073 <= D + (-50 + et) <= 1023)%Z as HD by lia.
  pose proof (binary_round_aux_a_lo_sumo (Z.pos (4503599627370496 * mt)) (-50 + et)
                loc_Exact ltac:(lia) HD ltac:(lia)) as H.
  fold D in H. clearbody D.
  destruct (binary_round_aux _ _ _ _ _ _) as [[]|[]| |[] m e]; cbn [a_lo_sumo] in *;
    try easy. lia.
Qed.

Lemma mul_positivo (x y : float) :
  (0x1p-500 <=? x)%float = true -> (0x1p-500 <=? y)%float = true ->
  positivo (x * y)%float.
Proof.
  intros Hx Hy. apply positivo_spec, (al_menos_no_nulo (-499 + -499 - 1)).
  apply mul_al_menos; [| |lia].
  - now apply (leb_al_menos 0x1p-500 x 4503599627370496 (-552)).
  - now apply (leb_al_menos 0x1p-500 y 4503599627370496 (-552)).
Qed.

(** [5 * q / (4 * t)] with [q] at least [2^-1000] and [t] in (0, 1]. *)
Lemma cociente_pentagono_positivo (q t : float) :
  (0x1p-1000 <=? q)%float = true -> positivo t -> (t <=? 1)%float = true ->
  positivo (5 * q / (4 * t))%float.
Proof.
  intros Hq Ht Ht1.
  apply (div_positivo (3 + -999 - 1) 5); [| |lia].
  - apply mul_al_menos; [| |lia].
    + change (Prim2SF 5) with (S754_finite false 5629499534213120 (-50)).
      simpl. lia.
    + now apply (leb_al_menos 0x1p-1000 q 4503599627370496 (-1052)).
  - now apply mul_4_a_lo_sumo.
Qed.

End IEEE.


(** ** Validation and construction *)

Lemma validarNumero_number (x : float) (n : string) :
  validarNumero (JsNumber x) n =
  if (x <=? 0)%float then Throw (InvalidParameter n) else Ok tt.
Proof. reflexivity. Qed.

Lemma validarNumero_no_number (v : JsValue) (n : string) :
  typeof v <> "number" -> validarNumero v n = Throw (InvalidParameter n).
Proof. destruct v; simpl; intros H; try reflexivity. now destruct H. Qed.

Lemma validarNumero_rechazado (v : JsValue) (n : string) :
  rechazado v -> validarNumero v n = Throw (InvalidParameter n).
Proof.
  intros [H | (x & -> & H)].
  - now apply validarNumero_no_number.
  - now rewrite validarNumero_number, H.
Qed.

Lemma validarNumero_positivo (x : float) (n : string) :
  positivo x -> validarNumero (JsNumber x) n = Ok tt.
Proof.
  intros H. now rewrite validarNumero_number, (IEEE.positivo_no_leb x H).
Qed.

Lemma validarNumero_valido (v : JsValue) (n : string) :
  valido v -> validarNumero v n = Ok tt.
Proof.
  destruct v; simpl; try easy. intros H.
  now apply validarNumero_positivo, IEEE.finito_positivo_positivo.
Qed.

Lemma validarNumero_casos (v : JsValue) (n : string) :
  validarNumero v n = Ok tt \/ validarNumero v n = Throw (InvalidParameter n).
Proof. unfold validarNumero. destruct (_ || _); auto. Qed.

(** Unfolding of a constructor once the outcome of its validations is
    known. *)
Ltac construye :=
  unfold new_Circulo, new_Rectangulo, new_Pentagono, new_Hexagono, new_Cubo,
    new_Esfera, new_Figura3DAdapter, nuevo_id, id_de, lift, throw,
    mbind, M_bind, mret, M_ret;
  repeat match goal with
         | H : validarNumero _ _ = _ |- _ => rewrite H
         end;
  try reflexivity.

Section Constructores.
Context `{rt : Runtime}.
Variables (v : JsValue) (k : nat).

Lemma new_Circulo_Ok :
  validarNumero v "radio" = Ok tt ->
  new_Circulo v k = (Ok (Circulo "Círculo" (id_de k) (numero v)), S k).
Proof. intros H; construye. Qed.

Lemma new_Pentagono_Ok :
  validarNumero v "lado" = Ok tt ->
  new_Pentagono v k = (Ok (Pentagono "Pentágono" (id_de k) (numero v)), S k).
Proof. intros H; construye. Qed.

Lemma new_Hexagono_Ok :
  validarNumero v "lado" = Ok tt ->
  new_Hexagono v k = (Ok (Hexagono "Hexágono" (id_de k) (numero v)), S k).
Proof. intros H; construye. Qed.

Lemma new_Rectangulo_Ok (w : JsValue) :
  validarNumero v "ancho" = Ok tt -> validarNumero w "alto" = Ok tt ->
  new_Rectangulo v w k =
  (Ok (Rectangulo "Rectángulo" (id_de k) (numero v) (numero w)), S k).
Proof. intros H1 H2; construye. Qed.

Lemma new_Cubo_Ok :
  validarNumero v "lado" = Ok tt ->
  new_Cubo v k = (Ok (Cubo "Cubo" (numero v)), k).
Proof. intros H; construye. Qed.

Lemma new_Esfera_Ok :
  validarNumero v "radio" = Ok tt ->
  new_Esfera v k = (Ok (Esfera "Esfera" (numero v)), k).
Proof. intros H; construye. Qed.

(** A rejected argument: the error, no instance, no draw. *)
Lemma constructores_rechazan (w : JsValue) :
  rechazado v ->
  new_Circulo v k = (Throw (InvalidParameter "radio"), k)
  /\ new_Rectangulo v w k = (Throw (InvalidParameter "ancho"), k)
  /\ (validarNumero w "ancho" = Ok tt ->
      new_Rectangulo w v k = (Throw (InvalidParameter "alto"), k))
  /\ new_Pentagono v k = (Throw (InvalidParameter "lado"), k)
  /\ new_Hexagono v k = (Throw (InvalidParameter "lado"), k)
  /\ new_Cubo v k = (Throw (InvalidParameter "lado"), k)
  /\ new_Esfera v k = (Throw (InvalidParameter "radio"), k).
Proof.
  intros R.
  pose proof (validarNumero_rechazado v "radio" R).
  pose proof (validarNumero_rechazado v "ancho" R).
  pose proof (validarNumero_rechazado v "alto" R).
  pose proof (validarNumero_rechazado v "lado" R).
  repeat split; try intros Hw; construye.
Qed.
End Constructores.

Lemma validarNumero_aceptado (v : JsValue) (n : string) :
  aceptado v -> validarNumero v n = Ok tt.
Proof. intros (x & -> & H). now apply validarNumero_positivo. Qed.

(** ** C1: validation *)

(** C1, as stated, fails at [Infinity]: it is not a real number, yet
    [validarNumero(Infinity, 'radio')] returns and [new Circulo(Infinity)]
    yields an instance. *)
Lemma validarNumero_acepta_infinito :
  es_real (JsNumber infinity) = false
  /\ validarNumero (JsNumber infinity) "radio" = Ok tt
  /\ @new_Circulo runtime_de_prueba (JsNumber infinity) 0
     = (Ok (Circulo "Círculo" "i" infinity), 1%nat).
Proof. repeat split. Qed.

(** NaN passes the same test, [NaN <= 0] being false. *)
Lemma validarNumero_NaN : validarNumero (JsNumber nan) "radio" = Ok tt.
Proof. reflexivity. Qed.

(** C1 (amended): for every value [v] other than NaN and every field name
    [n], [validarNumero(v, n)] throws InvalidParameter if and only if
    [typeof v] is not ['number'] or [v <= 0], and returns if and only if [v]
    is a Number above zero ([Infinity] included).  Each constructor given a
    rejected argument throws InvalidParameter for that field and yields no
    instance and no id draw; given accepted arguments it yields the
    instance holding them. *)
Theorem validarNumero_falla_sii (v : JsValue) (n : string) :
  v <> JsNumber nan ->
  (validarNumero v n = Throw (InvalidParameter n) <-> rechazado v)
  /\ (validarNumero v n = Ok tt <-> aceptado v)
  /\ (rechazado v -> forall (rt : Runtime) (k : nat) (w : JsValue),
        new_Circulo v k = (Throw (InvalidParameter "radio"), k)
        /\ new_Rectangulo v w k = (Throw (InvalidParameter "ancho"), k)
        /\ (aceptado w ->
            new_Rectangulo w v k = (Throw (InvalidParameter "alto"), k))
        /\ new_Pentagono v k = (Throw (InvalidParameter "lado"), k)
        /\ new_Hexagono v k = (Throw (InvalidParameter "lado"), k)
        /\ new_Cubo v k = (Throw (InvalidParameter "lado"), k)
        /\ new_Esfera v k = (Throw (InvalidParameter "radio"), k))
  /\ (aceptado v -> forall (rt : Runtime) (k : nat) (w : JsValue),
        new_Circulo v k = (Ok (Circulo "Círculo" (id_de k) (numero v)), S k)
        /\ (aceptado w ->
            new_Rectangulo v w k
            = (Ok (Rectangulo "Rectángulo" (id_de k) (numero v) (numero w)),
               S k))
        /\ new_Pentagono v k
           = (Ok (Pentagono "Pentágono" (id_de k) (numero v)), S k)
        /\ new_Hexagono v k
           = (Ok (Hexagono "Hexágono" (id_de k) (numero v)), S k)
        /\ new_Cubo v k = (Ok (Cubo "Cubo" (numero v)), k)
        /\ new_Esfera v k = (Ok (Esfera "Esfera" (numero v)), k)).
Proof.
  intros Hnan.
  assert (validarNumero v n = Ok tt <-> aceptado v) as Hok.
  { split; [|apply validarNumero_aceptado].
    destruct v as [| |b|x|z|s|d|r|r]; try discriminate.
    rewrite validarNumero_number.
    destruct (x <=? 0)%float eqn:E; [discriminate|]. intros _.
    exists x. split; [reflexivity|].
    apply IEEE.no_leb_positivo; [congruence|assumption]. }
  split; [|split; [exact Hok|split]].
  - split; [|apply validarNumero_rechazado].
    destruct v as [| |b|x|z|s|d|r|r]; try (left; discriminate).
    rewrite validarNumero_number.
    destruct (x <=? 0)%float eqn:E; [|discriminate].
    intros _. right. now exists x.
  - intros R rt k w.
    destruct (constructores_rechazan v k w R) as (H1 & H2 & H3 & H4).
    repeat split; try tauto.
    intros Hw. now apply H3, validarNumero_aceptado.
  - intros A rt k w.
    pose proof (fun m => validarNumero_aceptado v m A) as Hv.
    repeat split.
    + now apply new_Circulo_Ok.
    + intros Hw. now apply new_Rectangulo_Ok; [|apply validarNumero_aceptado].
    + now apply new_Pentagono_Ok.
    + now apply new_Hexagono_Ok.
    + now apply new_Cubo_Ok.
    + now apply new_Esfera_Ok.
Qed.

Lemma validarNumero_falla_sii_witness :
  (validarNumero (JsNumber 5) "radio" = Ok tt <-> aceptado (JsNumber 5))
  /\ (validarNumero (JsNumber (-1)) "lado" = Throw (InvalidParameter "lado")
      <-> rechazado (JsNumber (-1))).
Proof.
  split.
  - refine (proj1 (proj2 (validarNumero_falla_sii (JsNumber 5) "radio" _))).
    intros H. discriminate (f_equal (fun v => is_nan (numero v)) H).
  - refine (proj1 (validarNumero_falla_sii (JsNumber (-1)) "lado" _)).
    intros H. discriminate (f_equal (fun v => is_nan (numero v)) H).
Defined.

(** ** The factory on the recognized kinds *)

Lemma valido_numero (v : JsValue) :
  valido v -> v = JsNumber (numero v) /\ finito_positivo (numero v).
Proof. destruct v; simpl; try easy. Qed.

Section Fabrica.
Context `{rt : Runtime}.
Variables (p : gmap string JsValue) (k : nat).

Lemma crear_circulo :
  valido (campo p "radio") ->
  crear (JsString "circulo") p k
  = (Ok (Circulo "Círculo" (id_de k) (numero (campo p "radio"))), S k).
Proof. intros H. now apply new_Circulo_Ok, validarNumero_valido. Qed.

Lemma crear_rectangulo :
  valido (campo p "ancho") -> valido (campo p "alto") ->
  crear (JsString "rectangulo") p k
  = (Ok (Rectangulo "Rectángulo" (id_de k) (numero (campo p "ancho"))
           (numero (campo p "alto"))), S k).
Proof. intros H1 H2. now apply new_Rectangulo_Ok; apply validarNumero_valido. Qed.

Lemma crear_pentagono :
  valido (campo p "lado") ->
  crear (JsString "pentagono") p k
  = (Ok (Pentagono "Pentágono" (id_de k) (numero (campo p "lado"))), S k).
Proof. intros H. now apply new_Pentagono_Ok, validarNumero_valido. Qed.

Lemma crear_hexagono :
  valido (campo p "lado") ->
  crear (JsString "hexagono") p k
  = (Ok (Hexagono "Hexágono" (id_de k) (numero (campo p "lado"))), S k).
Proof. intros H. now apply new_Hexagono_Ok, validarNumero_valido. Qed.

Lemma crear_cubo :
  valido (campo p "lado") ->
  crear (JsString "cubo") p k
  = (Ok (Figura3DAdapter (Cubo "Cubo" (numero (campo p "lado"))) "Cubo"), k).
Proof.
  intros H. apply (validarNumero_valido _ "lado") in H.
  change (crear (JsString "cubo") p k)
    with ((s ← new_Cubo (campo p "lado"); new_Figura3DAdapter s) k).
  construye.
Qed.

Lemma crear_esfera :
  valido (campo p "radio") ->
  crear (JsString "esfera") p k
  = (Ok (Figura3DAdapter (Esfera "Esfera" (numero (campo p "radio"))) "Esfera"),
     k).
Proof.
  intros H. apply (validarNumero_valido _ "radio") in H.
  change (crear (JsString "esfera") p k)
    with ((s ← new_Esfera (campo p "radio"); new_Figura3DAdapter s) k).
  construye.
Qed.
End Fabrica.

Lemma campo_singleton (c : string) (v : JsValue) : campo {[ c := v ]} c = v.
Proof. unfold campo. now rewrite lookup_singleton_eq. Qed.

(** Case analysis on a recognized tag. *)
Lemma reconocidos_casos (t : string) :
  t ∈ reconocidos ->
  t = "circulo" \/ t = "rectangulo" \/ t = "pentagono" \/ t = "hexagono"
  \/ t = "cubo" \/ t = "esfera".
Proof.
  unfold reconocidos. rewrite !elem_of_cons, elem_of_nil. tauto.
Qed.

(** ** C2: what the factory's result provides *)

(** C2, as stated, fails for a cube: the adapter [crear('cubo', {lado: 3})]
    returns has neither the [id] accessor nor [compararSimilitud]; reading
    [id] gives [undefined] and calling [compararSimilitud] throws. *)
Lemma crear_cubo_no_conforme :
  exists f,
    @crear runtime_de_prueba (JsString "cubo") {[ "lado" := JsNumber 3 ]} 0
    = (Ok f, 0%nat)
    /\ conforme f = false
    /\ responde f "id" = false
    /\ responde f "compararSimilitud" = false
    /\ get_id f = JsUndefined
    /\ @compararSimilitud runtime_de_prueba f f None
       = Throw (TypeError "compararSimilitud is not a function").
Proof.
  exists (Figura3DAdapter (Cubo "Cubo" 3) "Cubo"). repeat split.
Qed.

(** C2 (amended): for every recognized kind tag and every parameter bag
    whose fields for that kind are strictly positive reals, the factory
    returns an instance that provides [calcularArea], [calcularPerimetro],
    [dibujarASCII] and [describir].  For the four 2D kinds it also provides
    the [id] accessor, which reads the id drawn at construction, and
    [compararSimilitud], which delegates to the strategy; for [cubo] and
    [esfera] the adapter provides neither: [id] reads [undefined] and a call
    of [compararSimilitud] throws a TypeError. *)
Theorem crear_contrato `{rt : Runtime} (t : string)
    (p : gmap string JsValue) (k : nat) :
  t ∈ reconocidos -> bolsa_valida t p ->
  exists (f : Figura) (k' : nat),
    crear (JsString t) p k = (Ok f, k')
    /\ Figura_valida f
    /\ responde f "calcularArea" = true
    /\ responde f "calcularPerimetro" = true
    /\ responde f "dibujarASCII" = true
    /\ responde f "describir" = true
    /\ if bool_decide (t ∈ tridimensionales)
       then responde f "id" = false
            /\ responde f "compararSimilitud" = false
            /\ get_id f = JsUndefined
            /\ forall g e, compararSimilitud f g e
                           = Throw (TypeError "compararSimilitud is not a function")
       else responde f "id" = true
            /\ responde f "compararSimilitud" = true
            /\ get_id f = JsString (id_de k)
            /\ forall g e, compararSimilitud f g e
                           = sonSimilares (default SimilitudTipo e) f g.
Proof.
  intros Ht Hp. unfold bolsa_valida in Hp.
  destruct (reconocidos_casos t Ht) as [-> | [-> | [-> | [-> | [-> | ->]]]]];
    cbn [campos_de String.eqb Ascii.eqb Bool.eqb] in Hp;
    repeat match goal with
           | H : Forall _ (_ :: _) |- _ => apply Forall_cons in H as [? H]
           end;
    do 2 eexists;
    (split;
     [ first [ now apply crear_circulo | now apply crear_rectangulo
             | now apply crear_pentagono | now apply crear_hexagono
             | now apply crear_cubo | now apply crear_esfera ]
     | ]);
    repeat match goal with
           | H : valido _ |- _ => apply valido_numero in H as [_ H]
           end;
    repeat split; assumption.
Qed.

Lemma crear_contrato_witness :
  exists (f : Figura) (k' : nat),
    @crear runtime_de_prueba (JsString "circulo") {[ "radio" := JsNumber 5 ]} 0
    = (Ok f, k')
    /\ Figura_valida f
    /\ responde f "calcularArea" = true
    /\ responde f "calcularPerimetro" = true
    /\ responde f "dibujarASCII" = true
    /\ responde f "describir" = true
    /\ responde f "id" = true
    /\ responde f "compararSimilitud" = true
    /\ get_id f = JsString (@id_de runtime_de_prueba 0)
    /\ forall g e, @compararSimilitud runtime_de_prueba f g e
                   = @sonSimilares runtime_de_prueba (default SimilitudTipo e) f g.
Proof.
  refine (@crear_contrato runtime_de_prueba "circulo"
            {[ "radio" := JsNumber 5 ]} 0 _ _).
  - unfold reconocidos. apply elem_of_cons. now left.
  - repeat constructor.
Defined.

(** ** Signs of areas, volumes and perimeters *)

(** The constants of the formulas. *)
Lemma constantes_finitas_positivas :
  finito_positivo 2 /\ finito_positivo 3 /\ finito_positivo 5
  /\ finito_positivo (2 / 3) /\ finito_positivo Math_PI
  /\ finito_positivo (4 / 3 * Math_PI)
  /\ finito_positivo (3 * Math_sqrt 3 / 2).
Proof. repeat split. Qed.

Lemma constantes_desde_uno :
  (1 <=? 2)%float = true /\ (1 <=? 5)%float = true /\ (1 <=? 6)%float = true
  /\ (1 <=? 2 * Math_PI)%float = true.
Proof. repeat split. Qed.

Lemma factores_desde_uno :
  (1 <=? Math_PI)%float = true /\ (1 <=? 3 * Math_sqrt 3 / 2)%float = true.
Proof. split; reflexivity. Qed.

Lemma finito_positivo_no_negativo (x : float) :
  finito_positivo x -> no_negativo x.
Proof.
  intros H. now apply IEEE.positivo_no_negativo, IEEE.finito_positivo_positivo.
Qed.

Section Signos.
Context `{rt : Runtime}.

Lemma area_rectangulo (n i : string) (ancho alto : float) :
  finito_positivo ancho -> finito_positivo alto ->
  no_negativo (calcularArea (Rectangulo n i ancho alto)).
Proof.
  intros Hw Hh. apply IEEE.mul_no_negativo; [assumption|].
  now apply finito_positivo_no_negativo.
Qed.

Hypothesis Hpow : potencia_no_negativa.

Lemma potencia_2 (x : float) :
  finito_positivo x -> no_negativo (exponentiate x 2).
Proof.
  intros H. apply Hpow; [now apply finito_positivo_no_negativo|].
  apply constantes_finitas_positivas.
Qed.

Lemma area_circulo (n i : string) (radio : float) :
  finito_positivo radio -> no_negativo (calcularArea (Circulo n i radio)).
Proof.
  intros H. apply IEEE.mul_no_negativo; [apply constantes_finitas_positivas|].
  now apply potencia_2.
Qed.

Lemma area_hexagono (n i : string) (lado : float) :
  finito_positivo lado -> no_negativo (calcularArea (Hexagono n i lado)).
Proof.
  intros H. apply IEEE.mul_no_negativo; [apply constantes_finitas_positivas|].
  now apply potencia_2.
Qed.

Lemma volumen_no_negativo (s : Solido) :
  Solido_valido s -> no_negativo (calcularVolumen s).
Proof.
  destruct s as [n lado | n radio]; simpl; intros H.
  - apply Hpow; [now apply finito_positivo_no_negativo|].
    apply constantes_finitas_positivas.
  - apply IEEE.mul_no_negativo; [apply constantes_finitas_positivas|].
    apply Hpow; [now apply finito_positivo_no_negativo|].
    apply constantes_finitas_positivas.
Qed.

Lemma area_adaptador (s : Solido) (n : string) :
  Solido_valido s -> no_negativo (calcularArea (Figura3DAdapter s n)).
Proof.
  intros H. apply Hpow; [now apply volumen_no_negativo|].
  apply constantes_finitas_positivas.
Qed.

Hypothesis Htan : tangente_acotada.

Lemma area_pentagono (n i : string) (lado : float) :
  finito_positivo lado -> no_negativo (calcularArea (Pentagono n i lado)).
Proof.
  intros H. apply IEEE.div_no_negativo.
  - apply IEEE.mul_no_negativo; [apply constantes_finitas_positivas|].
    now apply potencia_2.
  - destruct Htan as [T1 T2]. now apply IEEE.mul_4_finito.
Qed.

Lemma area_no_negativa (f : Figura) :
  Figura_valida f -> no_negativo (calcularArea f).
Proof.
  destruct f as [n i radio | n i ancho alto | n i lado | n i lado | s n];
    cbn [Figura_valida]; intros H.
  - now apply area_circulo.
  - now apply area_rectangulo.
  - now apply area_pentagono.
  - now apply area_hexagono.
  - now apply area_adaptador.
Qed.
End Signos.

(** Where nothing underflows the area is above zero. *)
Section AreasPositivas.
Context `{rt : Runtime}.

Lemma area_circulo_positiva (n i : string) (radio : float) :
  positivo (exponentiate radio 2) ->
  positivo (calcularArea (Circulo n i radio)).
Proof. intros H. apply IEEE.mul_ge1_positivo; [apply factores_desde_uno|exact H]. Qed.

Lemma area_hexagono_positiva (n i : string) (lado : float) :
  positivo (exponentiate lado 2) ->
  positivo (calcularArea (Hexagono n i lado)).
Proof. intros H. apply IEEE.mul_ge1_positivo; [apply factores_desde_uno|exact H]. Qed.

Lemma area_rectangulo_positiva (n i : string) (ancho alto : float) :
  desde 0x1p-500 ancho -> desde 0x1p-500 alto ->
  positivo (calcularArea (Rectangulo n i ancho alto)).
Proof. intros Hw Hh. now apply IEEE.mul_positivo. Qed.

Lemma area_pentagono_positiva (n i : string) (lado : float) :
  tangente_acotada -> desde 0x1p-1000 (exponentiate lado 2) ->
  positivo (calcularArea (Pentagono n i lado)).
Proof. intros [T1 T2] H. now apply IEEE.cociente_pentagono_positivo. Qed.
End AreasPositivas.

Lemma perimetro_positivo (f : Figura) :
  Figura_valida f -> clase_de f <> CFigura3DAdapter ->
  positivo (calcularPerimetro f).
Proof.
  destruct f as [n i radio | n i ancho alto | n i lado | n i lado | s n];
    simpl; intros H Hc; try easy;
    apply IEEE.mul_ge1_positivo; try apply constantes_desde_uno;
    try (now apply IEEE.finito_positivo_positivo).
  destruct H as [Hw Hh].
  apply IEEE.add_positivo; now apply IEEE.finito_positivo_positivo.
Qed.

(** The test runtime meets both assumptions. *)
Lemma potencia_de_prueba_no_negativa : @potencia_no_negativa runtime_de_prueba.
Proof.
  intros x y _ _. unfold no_negativo. cbn [exponentiate runtime_de_prueba].
  unfold potencia_de_prueba.
  match goal with
  | |- (0 <=? (if (0 <=? ?r)%float then _ else _))%float = true =>
      destruct (0 <=? r)%float eqn:E; [exact E|reflexivity]
  end.
Qed.

Lemma tangente_de_prueba_acotada : @tangente_acotada runtime_de_prueba.
Proof. split; reflexivity. Qed.

(** ** C3: the closed forms of the 2D shapes *)

(** C3, as stated, fails for a small rectangle: [new Rectangulo(2^-600, 2^-600)]
    is built from strictly positive reals and its area, [2^-600 * 2^-600],
    rounds to 0, which is not strictly positive. *)
Lemma area_rectangulo_cero :
  finito_positivo 0x1p-600
  /\ @new_Rectangulo runtime_de_prueba (JsNumber 0x1p-600) (JsNumber 0x1p-600) 0
     = (Ok (Rectangulo "Rectángulo" "i" 0x1p-600 0x1p-600), 1%nat)
  /\ (forall rt : Runtime,
        @calcularArea rt (Rectangulo "Rectángulo" "i" 0x1p-600 0x1p-600)
        = 0%float)
  /\ (0 <? 0x1p-600 * 0x1p-600)%float = false.
Proof. repeat split. Qed.

(** C3 (amended): for every 2D shape constructed with strictly positive
    real parameters, [calcularArea()] and [calcularPerimetro()] are the
    closed forms of the kind evaluated in binary64 arithmetic: Circle
    [Math.PI * r ** 2] and [2 * Math.PI * r]; Rectangle [w * h] and
    [2 * (w + h)]; Pentagon [(5 * s ** 2) / (4 * Math.tan(Math.PI / 5))] and
    [5 * s]; Hexagon [((3 * Math.sqrt(3)) / 2) * s ** 2] and [6 * s].  The
    perimeter is strictly positive.  The area is never negative and never
    NaN: always so for the rectangle, and for the other kinds on an engine
    whose [**] is non-negative on non-negative bases and, for the pentagon,
    whose [Math.tan(Math.PI / 5)] lies in (0, 1].  The area is strictly
    positive where nothing underflows: for the rectangle when both sides are
    at least [2^-500]; for the circle and the hexagon when the square the
    engine returns is above zero; for the pentagon when that square is at
    least [2^-1000] and the tangent lies in (0, 1]. *)
Theorem formulas_2D `{rt : Runtime} (k : nat) :
  (forall r, finito_positivo r ->
     let f := Circulo "Círculo" (id_de k) r in
     new_Circulo (JsNumber r) k = (Ok f, S k)
     /\ calcularArea f = (Math_PI * exponentiate r 2)%float
     /\ calcularPerimetro f = (2 * Math_PI * r)%float
     /\ positivo (calcularPerimetro f)
     /\ (potencia_no_negativa -> no_negativo (calcularArea f))
     /\ (positivo (exponentiate r 2) -> positivo (calcularArea f)))
  /\ (forall w h, finito_positivo w -> finito_positivo h ->
     let f := Rectangulo "Rectángulo" (id_de k) w h in
     new_Rectangulo (JsNumber w) (JsNumber h) k = (Ok f, S k)
     /\ calcularArea f = (w * h)%float
     /\ calcularPerimetro f = (2 * (w + h))%float
     /\ positivo (calcularPerimetro f)
     /\ no_negativo (calcularArea f)
     /\ (desde 0x1p-500 w -> desde 0x1p-500 h -> positivo (calcularArea f)))
  /\ (forall s, finito_positivo s ->
     let f := Pentagono "Pentágono" (id_de k) s in
     new_Pentagono (JsNumber s) k = (Ok f, S k)
     /\ calcularArea f
        = (5 * exponentiate s 2 / (4 * Math_tan (Math_PI / 5)))%float
     /\ calcularPerimetro f = (5 * s)%float
     /\ positivo (calcularPerimetro f)
     /\ (potencia_no_negativa -> tangente_acotada ->
         no_negativo (calcularArea f))
     /\ (tangente_acotada -> desde 0x1p-1000 (exponentiate s 2) ->
         positivo (calcularArea f)))
  /\ (forall s, finito_positivo s ->
     let f := Hexagono "Hexágono" (id_de k) s in
     new_Hexagono (JsNumber s) k = (Ok f, S k)
     /\ calcularArea f = (3 * Math_sqrt 3 / 2 * exponentiate s 2)%float
     /\ calcularPerimetro f = (6 * s)%float
     /\ positivo (calcularPerimetro f)
     /\ (potencia_no_negativa -> no_negativo (calcularArea f))
     /\ (positivo (exponentiate s 2) -> positivo (calcularArea f))).
Proof.
  repeat split;
    try (first [ apply new_Circulo_Ok | apply new_Rectangulo_Ok
               | apply new_Pentagono_Ok | apply new_Hexagono_Ok ];
         now apply validarNumero_positivo, IEEE.finito_positivo_positivo);
    try (now apply perimetro_positivo).
  - intros Hpow. now apply area_circulo.
  - apply area_circulo_positiva.
  - now apply area_rectangulo.
  - apply area_rectangulo_positiva.
  - intros Hpow Htan. now apply area_pentagono.
  - apply area_pentagono_positiva.
  - intros Hpow. now apply area_hexagono.
  - apply area_hexagono_positiva.
Qed.

Lemma formulas_2D_witness :
  let f := Pentagono "Pentágono" (@id_de runtime_de_prueba 0) 4 in
  @new_Pentagono runtime_de_prueba (JsNumber 4) 0 = (Ok f, 1%nat)
  /\ @calcularArea runtime_de_prueba f
     = (5 * @exponentiate runtime_de_prueba 4 2
        / (4 * @Math_tan runtime_de_prueba (Math_PI / 5)))%float
  /\ calcularPerimetro f = (5 * 4)%float
  /\ positivo (calcularPerimetro f)
  /\ no_negativo (@calcularArea runtime_de_prueba f)
  /\ positivo (@calcularArea runtime_de_prueba f).
Proof.
  destruct (proj1 (proj2 (proj2 (@formulas_2D runtime_de_prueba 0)))
              4%float eq_refl) as (H1 & H2 & H3 & H4 & H5 & H6).
  exact (conj H1 (conj H2 (conj H3 (conj H4
           (conj (H5 potencia_de_prueba_no_negativa tangente_de_prueba_acotada)
                 (H6 tangente_de_prueba_acotada eq_refl)))))).
Defined.

(** ** The real power behind [**]

    Logarithms of the finite Numbers, the real value of the literals the
    program passes to [**], and what the rounding of [2 / 3] costs. *)
Module Reales.
Local Open Scope R_scope.

Lemma ln_2_le_1 : ln 2 <= 1.
Proof.
  rewrite <- (ln_exp 1).
  destruct (Rle_lt_or_eq_dec 2 (exp 1)) as [H | H].
  - pose proof (exp_ineq1_le 1). lra.
  - left. apply ln_increasing; lra.
  - rewrite <- H. lra.
Qed.

Lemma ln_2_pos : 0 < ln 2.
Proof. pose proof ln_lt_2. lra. Qed.

Lemma ln_powerRZ_2 (z : Z) : ln (powerRZ 2 z) = IZR z * ln 2.
Proof.
  rewrite powerRZ_Rpower by lra. unfold Rpower. now rewrite ln_exp.
Qed.

Lemma ln_mono (x y : R) : 0 < x -> x <= y -> ln x <= ln y.
Proof.
  intros Hx [H | ->]; [left; now apply ln_increasing | lra].
Qed.

Lemma exp_mono (x y : R) : x <= y -> exp x <= exp y.
Proof. intros [H | ->]; [left; now apply exp_increasing | lra]. Qed.

(** [exp t <= 1 / (1 - t)] below 1. *)
Lemma exp_cota (t : R) : t < 1 -> exp t <= / (1 - t).
Proof.
  intros Ht. pose proof (exp_ineq1_le (- t)) as H. rewrite exp_Ropp in H.
  pose proof (exp_pos t) as Hp.
  apply (Rmult_le_reg_r (1 - t)); [lra|].
  rewrite Rinv_l by lra.
  apply (Rmult_le_compat_r (exp t)) in H; [|lra].
  rewrite Rinv_l in H by lra. lra.
Qed.

(** [powerRZ 2 z] at a literal [z], as a quotient of integer literals. *)
Ltac potencias_de_dos :=
  repeat match goal with
         | |- context [powerRZ 2 (Z.neg ?p)] =>
             let z := eval vm_compute in (2 ^ Z.pos p)%Z in
             replace (powerRZ 2 (Z.neg p)) with (/ IZR z)
               by (change (powerRZ 2 (Z.neg p)) with (/ (2 ^ Pos.to_nat p));
                   rewrite (pow_IZR 2 (Pos.to_nat p)); do 2 f_equal;
                   vm_compute; reflexivity)
         | |- context [powerRZ 2 (Z.pos ?p)] =>
             let z := eval vm_compute in (2 ^ Z.pos p)%Z in
             replace (powerRZ 2 (Z.pos p)) with (IZR z)
               by (change (powerRZ 2 (Z.pos p)) with (2 ^ Pos.to_nat p);
                   rewrite (pow_IZR 2 (Pos.to_nat p)); f_equal;
                   vm_compute; reflexivity)
         end.

Ltac valor_literal c :=
  unfold valor_real;
  let v := eval vm_compute in (Prim2SF c) in
  change (Prim2SF c) with v; cbv iota beta; potencias_de_dos.

Lemma valor_3 : valor_real 3 = 3.
Proof. valor_literal 3%float. lra. Qed.

Lemma valor_27 : valor_real 27 = 27.
Proof. valor_literal 27%float. lra. Qed.

Lemma valor_9 : valor_real 9 = 9.
Proof. valor_literal 9%float. lra. Qed.

(** The literal [2 / 3] is the quotient rounded: it lies [1 / (3 * 2^53)]
    below two thirds. *)
Lemma valor_dos_tercios :
  valor_real (2 / 3)%float = 2 / 3 + - / 27021597764222976.
Proof. valor_literal (2 / 3)%float. lra. Qed.

Lemma valor_finito (v : float) :
  finito_positivo v ->
  exists (m : positive) (e : Z),
    Prim2SF v = S754_finite false m e
    /\ valor_real v = IZR (Z.pos m) * powerRZ 2 e
    /\ (Z.pos m < 2 ^ 53)%Z /\ (-1074 <= e <= 971)%Z.
Proof.
  intros H. apply IEEE.finito_positivo_spec in H.
  pose proof (Prim2SF_valid v) as Hv. unfold valor_real.
  destruct (Prim2SF v) as [ | | |s m e]; simpl in H; try contradiction.
  subst s. exists m, e. split; [reflexivity|]. split; [lra|].
  apply IEEE.bounded_digits in Hv as [He He'].
  pose proof (IEEE.digits2_upper m) as Hm.
  assert (Z.pos (digits2_pos m) <= 53)%Z as Hd by lia.
  split; [|lia].
  eapply Z.lt_le_trans; [exact Hm|]. apply Z.pow_le_mono_r; lia.
Qed.

Lemma valor_positivo (v : float) : 0 < valor_real v -> finito_positivo v.
Proof.
  intros H. apply IEEE.finito_positivo_spec. unfold valor_real in H.
  destruct (Prim2SF v) as [ | | |[] m e]; simpl; try lra; try reflexivity.
  exfalso. pose proof (powerRZ_lt 2 e ltac:(lra)) as Hp.
  assert (0 < IZR (Z.pos m)) as Hm by (apply IZR_lt; lia).
  assert (0 < IZR (Z.pos m) * powerRZ 2 e) by now apply Rmult_lt_0_compat.
  lra.
Qed.

(** A finite positive Number lies in [[2^-1074, 2^1024]]: its logarithm
    in [[-1074, 1024]]. *)
Lemma ln_valor (v : float) :
  finito_positivo v -> 0 < valor_real v /\ -1074 <= ln (valor_real v) <= 1024.
Proof.
  intros H. destruct (valor_finito v H) as (m & e & _ & -> & Hm & He).
  assert (1 <= IZR (Z.pos m)) as Hm1 by (apply IZR_le; lia).
  assert (IZR (Z.pos m) <= IZR (2 ^ 53)) as Hm2 by (apply IZR_le; lia).
  pose proof (powerRZ_lt 2 e ltac:(lra)) as Hp.
  split; [apply Rmult_lt_0_compat; lra|].
  rewrite ln_mult by lra. rewrite ln_powerRZ_2.
  assert (0 <= ln (IZR (Z.pos m))) as H0.
  { rewrite <- ln_1. apply ln_mono; lra. }
  assert (ln (IZR (Z.pos m)) <= 53 * ln 2) as H1.
  { rewrite <- (ln_powerRZ_2 53). apply ln_mono; [lra|].
    replace (powerRZ 2 53) with (IZR (2 ^ 53)); [exact Hm2|].
    change (powerRZ 2 53) with (2 ^ Pos.to_nat 53).
    rewrite (pow_IZR 2 (Pos.to_nat 53)). f_equal. }
  assert (-1074 <= IZR e <= 971) as He'.
  { split; apply IZR_le; lia. }
  pose proof ln_2_le_1. pose proof ln_2_pos.
  split.
  - assert (-1074 * ln 2 <= IZR e * ln 2) by (apply Rmult_le_compat_r; lra).
    lra.
  - assert (IZR e * ln 2 <= 971 * ln 2) by (apply Rmult_le_compat_r; lra).
    lra.
Qed.

(** What the rounding of [2 / 3] costs: for [v] in the range of the finite
    Numbers, [v] to the literal is [v] to two thirds up to a factor within
    [2^-43] of 1. *)
Lemma factor_del_exponente (V : R) :
  -1074 <= ln V <= 1024 ->
  1 - / 8796093022208 <= Rpower V (- / 27021597764222976)
  <= 1 + / 8796093022208.
Proof.
  intros HV. unfold Rpower.
  set (u := - / 27021597764222976 * ln V).
  assert (- (1024 / 27021597764222976) <= u <= 1074 / 27021597764222976) as Hu
    by (unfold u; lra).
  split.
  - pose proof (exp_ineq1_le u). lra.
  - eapply Rle_trans; [apply exp_cota; lra|].
    apply (Rmult_le_reg_r (1 - u)); [lra|].
    rewrite Rinv_l by lra. lra.
Qed.

Lemma potencia_literal (V : R) :
  Rpower V (valor_real (2 / 3)%float)
  = Rpower V (2 / 3) * Rpower V (- / 27021597764222976).
Proof. rewrite valor_dos_tercios. apply Rpower_plus. Qed.

Lemma cerca_spec (d a b : R) : cerca d a b <-> - (d * b) <= a - b <= d * b.
Proof.
  unfold cerca, Rabs. destruct (Rcase_abs (a - b)); lra.
Qed.

(** Within [eps] of the power to the literal is within [2 * eps + 2^-43] of
    the power to two thirds. *)
Lemma cerca_dos_tercios (eps A V : R) :
  0 <= eps -> -1074 <= ln V <= 1024 ->
  cerca eps A (Rpower V (valor_real (2 / 3)%float)) ->
  cerca (2 * eps + / 8796093022208) A (Rpower V (2 / 3)).
Proof.
  intros He HV. rewrite potencia_literal, !cerca_spec.
  pose proof (factor_del_exponente V HV) as [E1 E2].
  set (E := Rpower V (- / 27021597764222976)) in *.
  assert (0 < Rpower V (2 / 3)) as HP by apply exp_pos.
  set (P := Rpower V (2 / 3)) in *.
  intros [H1 H2].
  assert (P * (1 - / 8796093022208) <= P * E) by (apply Rmult_le_compat_l; lra).
  assert (P * E <= P * (1 + / 8796093022208)) by (apply Rmult_le_compat_l; lra).
  assert (0 <= eps * P) by (apply Rmult_le_pos; lra).
  assert (eps * (P * E) <= eps * (P * (1 + / 8796093022208)))
    by (apply Rmult_le_compat_l; lra).
  lra.
Qed.

(** Two thirds of the way: [a ^ (2/3)] lies between [a] and 1. *)
Lemma potencia_sobre_uno (a : R) : 1 <= a -> Rpower a (2 / 3) <= a.
Proof.
  intros H. rewrite <- (Rpower_1 a) at 2 by lra. apply Rle_Rpower; lra.
Qed.

Lemma potencia_bajo_uno (a : R) : 0 < a <= 1 -> a <= Rpower a (2 / 3).
Proof.
  intros [H0 H1]. rewrite <- (exp_ln a) at 1 by lra. unfold Rpower.
  apply exp_mono.
  assert (ln a <= 0) by (rewrite <- ln_1; apply ln_mono; lra). lra.
Qed.

Lemma potencia_cubo (X : R) : 0 < X -> Rpower (X * X * X) (2 / 3) = X * X.
Proof.
  intros H.
  replace (X * X * X) with (Rpower X (INR 3)) by (rewrite Rpower_pow by lra; simpl; lra).
  rewrite Rpower_mult.
  replace (INR 3 * (2 / 3)) with (INR 2) by (simpl; lra).
  rewrite Rpower_pow by lra. simpl; lra.
Qed.

Lemma potencia_tres (X : R) : 0 < X -> Rpower X (valor_real 3) = X * X * X.
Proof.
  intros H. rewrite valor_3.
  replace 3 with (INR 3) by (simpl; lra).
  rewrite Rpower_pow by lra. simpl; lra.
Qed.

(** A volume within [eps] of [X^3] has its power to two thirds within [eps]
    of [X^2]. *)
Lemma cerca_cubo (eps V X : R) :
  0 <= eps < 1 -> 0 < X ->
  cerca eps V (X * X * X) ->
  0 < V /\ cerca eps (Rpower V (2 / 3)) (X * X).
Proof.
  intros He HX. rewrite !cerca_spec. intros [H1 H2].
  assert (0 < X * X) as HS by (apply Rmult_lt_0_compat; lra).
  assert (0 < X * X * X) as HC by (apply Rmult_lt_0_compat; lra).
  set (C := X * X * X) in *.
  assert (0 <= eps * C) by (apply Rmult_le_pos; lra).
  assert (0 < (1 - eps) * C) by (apply Rmult_lt_0_compat; lra).
  assert (0 < V) as HV by lra.
  split; [exact HV|].
  assert (Rpower (C * (1 - eps)) (2 / 3) <= Rpower V (2 / 3)) as L.
  { apply Rle_Rpower_l; lra. }
  assert (Rpower V (2 / 3) <= Rpower (C * (1 + eps)) (2 / 3)) as U.
  { apply Rle_Rpower_l; lra. }
  rewrite <- Rpower_mult_distr in L, U by lra.
  unfold C in L, U. rewrite potencia_cubo in L, U by lra.
  pose proof (potencia_sobre_uno (1 + eps) ltac:(lra)) as U'.
  pose proof (potencia_bajo_uno (1 - eps) ltac:(lra)) as L'.
  assert (X * X * (1 - eps) <= X * X * Rpower (1 - eps) (2 / 3))
    by (apply Rmult_le_compat_l; lra).
  assert (X * X * Rpower (1 + eps) (2 / 3) <= X * X * (1 + eps))
    by (apply Rmult_le_compat_l; lra).
  lra.
Qed.

Lemma dos_43 : 2 ^ 43 = 8796093022208.
Proof. rewrite (pow_IZR 2 43). f_equal. Qed.

Lemma dos_42 : 2 ^ 42 = 4398046511104.
Proof. rewrite (pow_IZR 2 42). f_equal. Qed.

Lemma dos_40 : 2 ^ 40 = 1099511627776.
Proof. rewrite (pow_IZR 2 40). f_equal. Qed.

(** The adapter's area against its solid's volume to two thirds. *)
Lemma adaptador_cerca `{rt : Runtime} (s : Solido) (n : string) (eps : R) :
  0 <= eps <= 1 / 4 ->
  finito_positivo (calcularVolumen s) ->
  potencia_precisa eps (calcularVolumen s) (2 / 3) ->
  finito_positivo (calcularArea (Figura3DAdapter s n))
  /\ cerca (2 * eps + / 2 ^ 43) (valor_real (calcularArea (Figura3DAdapter s n)))
       (Rpower (valor_real (calcularVolumen s)) (2 / 3)).
Proof.
  intros He Hv Hp. cbn [calcularArea]. unfold potencia_precisa in Hp.
  destruct (ln_valor _ Hv) as [HV HL].
  apply cerca_dos_tercios in Hp; [|lra|exact HL].
  rewrite dos_43. split; [|exact Hp].
  apply valor_positivo. apply cerca_spec in Hp.
  assert (0 < Rpower (valor_real (calcularVolumen s)) (2 / 3)) as HP by apply exp_pos.
  set (P := Rpower (valor_real (calcularVolumen s)) (2 / 3)) in *.
  assert (0 <= eps * P) by (apply Rmult_le_pos; lra).
  assert (eps * P <= 1 / 4 * P) by (apply Rmult_le_compat_r; lra).
  lra.
Qed.

(** The adapter over a cube against the square of the side. *)
Lemma cubo_cerca `{rt : Runtime} (x : float) (n1 n2 : string) (eps : R) :
  0 <= eps <= 1 / 4 ->
  finito_positivo x ->
  potencia_precisa eps x 3 ->
  potencia_precisa eps (exponentiate x 3) (2 / 3) ->
  finito_positivo (calcularArea (Figura3DAdapter (Cubo n1 x) n2))
  /\ cerca (4 * eps + / 2 ^ 42)
       (valor_real (calcularArea (Figura3DAdapter (Cubo n1 x) n2)))
       (valor_real x * valor_real x).
Proof.
  intros He Hx H1 H2.
  destruct (ln_valor _ Hx) as [HX _].
  unfold potencia_precisa in H1. rewrite potencia_tres in H1 by exact HX.
  apply cerca_cubo in H1 as [HV HS]; [|lra|exact HX].
  apply valor_positivo in HV.
  destruct (adaptador_cerca (Cubo n1 x) n2 eps He HV H2) as [Hf Ha].
  split; [exact Hf|].
  cbn [calcularVolumen] in Ha.
  set (A := valor_real (calcularArea (Figura3DAdapter (Cubo n1 x) n2))) in *.
  set (P := Rpower (valor_real (exponentiate x 3)) (2 / 3)) in *.
  assert (0 < valor_real x * valor_real x) as HS0 by (apply Rmult_lt_0_compat; lra).
  set (S := valor_real x * valor_real x) in *.
  rewrite dos_43 in Ha. rewrite dos_42.
  apply cerca_spec in HS, Ha. apply cerca_spec.
  assert (0 <= eps * S) by (apply Rmult_le_pos; lra).
  assert (eps * S <= 1 / 4 * S) by (apply Rmult_le_compat_r; lra).
  assert (eps * P <= eps * (5 / 4 * S)) by (apply Rmult_le_compat_l; lra).
  assert (0 <= eps * P) by (apply Rmult_le_pos; lra).
  lra.
Qed.

(** The evaluation runtime at the two powers of the cube of side 3: 27
    exactly, and 9 for the power to the literal [2 / 3]. *)
Lemma potencia_de_prueba_precisa :
  @exponentiate runtime_de_prueba 3 3 = 27%float
  /\ @exponentiate runtime_de_prueba 27 (2 / 3) = 9%float
  /\ @potencia_precisa runtime_de_prueba (/ 2 ^ 40) 3 3
  /\ @potencia_precisa runtime_de_prueba (/ 2 ^ 40)
       (@exponentiate runtime_de_prueba 3 3) (2 / 3).
Proof.
  split; [reflexivity|]. split; [reflexivity|].
  unfold potencia_precisa.
  change (@exponentiate runtime_de_prueba 3 3) with 27%float.
  change (@exponentiate runtime_de_prueba 27 (2 / 3)) with 9%float.
  rewrite dos_40, valor_27, valor_9, potencia_tres, valor_3 by (rewrite valor_3; lra).
  rewrite potencia_literal.
  replace 27 with (3 * 3 * 3) at 2 by lra.
  rewrite potencia_cubo by lra.
  destruct (ln_valor 27 eq_refl) as [_ HL]. rewrite valor_27 in HL.
  pose proof (factor_del_exponente 27 HL) as HE.
  split; apply cerca_spec; lra.
Qed.

Lemma dos_52 : 2 ^ 52 = 4503599627370496.
Proof. rewrite (pow_IZR 2 52). f_equal. Qed.

Lemma dos_49 : 2 ^ 49 = 562949953421312.
Proof. rewrite (pow_IZR 2 49). f_equal. Qed.

(** The Number just below 9, which prints as 8.999999999999998. *)
Lemma valor_bajo_9 : valor_real 0x1.1ffffffffffffp+3 = 9 - / 2 ^ 49.
Proof. rewrite dos_49. valor_literal 0x1.1ffffffffffffp+3%float. lra. Qed.

Lemma ln_27 : 0 <= ln 27 <= 5.
Proof.
  split.
  - rewrite <- ln_1. apply ln_mono; lra.
  - apply Rle_trans with (ln (powerRZ 2 5)).
    + apply ln_mono; [lra|]. simpl. lra.
    + rewrite ln_powerRZ_2. pose proof ln_2_le_1. lra.
Qed.

(** 8.999999999999998 is within [2^-52] of 27 to the literal [2 / 3]. *)
Lemma bajo_9_preciso :
  cerca (/ 2 ^ 52) (valor_real 0x1.1ffffffffffffp+3)
    (Rpower (valor_real 27) (valor_real (2 / 3)%float)).
Proof.
  rewrite valor_bajo_9, valor_27, potencia_literal, dos_52, dos_49.
  replace 27 with (3 * 3 * 3) at 1 by lra.
  rewrite potencia_cubo by lra.
  pose proof ln_27 as HL. unfold Rpower.
  set (u := - / 27021597764222976 * ln 27).
  assert (- (5 / 27021597764222976) <= u <= 0) as Hu by (unfold u; lra).
  pose proof (exp_ineq1_le u) as H1.
  assert (exp u <= 1) as H2 by (rewrite <- exp_0; apply exp_mono; lra).
  apply cerca_spec. lra.
Qed.

End Reales.

(** ** C4: the adapter over a solid *)


(** C4: the factory on [cubo] (resp. [esfera]) with a strictly positive
    real side [s] (resp. radius [r]) returns the adapter over the solid of
    volume [s ** 3] (resp. [(4 / 3) * Math.PI * r ** 3]); every adapter's
    [calcularArea()] is its solid's volume raised to the literal [2 / 3] and
    its [calcularPerimetro()] is exactly 0.  With [**] within the relative
    error [eps], at most a quarter, of the real power at the arguments the
    program passes: the area of an adapter over a solid of finite positive
    volume is a finite positive Number within [2 * eps + 2^-43] of the real
    two-thirds power of the volume, [2^-43] covering the rounding of
    [2 / 3]; the area of the adapter over the cube of side [s] is within
    the relative error [4 * eps + 2^-42] of [s^2]; for the cube of side 3 it
    is within [9 * (4 * eps + 2^-42)] of 9, and the perimeter is 0.  On an
    engine where [3 ** 3] is 27 and [27 ** (2 / 3)] is 8.999999999999998, a
    value within [2^-52] of the real power, that Number is the area and
    lies [2^-49] below 9. *)
Theorem adaptador_area_perimetro `{rt : Runtime} (x : float) (k : nat)
    (eps : R) :
  finito_positivo x -> (0 <= eps <= 1 / 4)%R ->
  (forall (s : Solido) (n : string),
     calcularArea (Figura3DAdapter s n)
     = exponentiate (calcularVolumen s) (2 / 3)
     /\ calcularPerimetro (Figura3DAdapter s n) = 0%float
     /\ (finito_positivo (calcularVolumen s) ->
         potencia_precisa eps (calcularVolumen s) (2 / 3) ->
         finito_positivo (calcularArea (Figura3DAdapter s n))
         /\ cerca (2 * eps + / 2 ^ 43)
              (valor_real (calcularArea (Figura3DAdapter s n)))
              (Rpower (valor_real (calcularVolumen s)) (2 / 3))))
  /\ (let f := Figura3DAdapter (Cubo "Cubo" x) "Cubo" in
      crear (JsString "cubo") {[ "lado" := JsNumber x ]} k = (Ok f, k)
      /\ calcularVolumen (Cubo "Cubo" x) = exponentiate x 3
      /\ calcularArea f = exponentiate (exponentiate x 3) (2 / 3)
      /\ calcularPerimetro f = 0%float
      /\ (potencia_precisa eps x 3 ->
          potencia_precisa eps (exponentiate x 3) (2 / 3) ->
          finito_positivo (calcularArea f)
          /\ cerca (4 * eps + / 2 ^ 42) (valor_real (calcularArea f))
               (valor_real x * valor_real x)))
  /\ (let f := Figura3DAdapter (Esfera "Esfera" x) "Esfera" in
      crear (JsString "esfera") {[ "radio" := JsNumber x ]} k = (Ok f, k)
      /\ calcularVolumen (Esfera "Esfera" x)
         = (4 / 3 * Math_PI * exponentiate x 3)%float
      /\ calcularArea f
         = exponentiate (4 / 3 * Math_PI * exponentiate x 3) (2 / 3)
      /\ calcularPerimetro f = 0%float)
  /\ (let f := Figura3DAdapter (Cubo "Cubo" 3) "Cubo" in
      crear (JsString "cubo") {[ "lado" := JsNumber 3 ]} k = (Ok f, k)
      /\ calcularArea f = exponentiate (exponentiate 3 3) (2 / 3)
      /\ (exponentiate 3 3 = 27%float ->
          calcularArea f = exponentiate 27 (2 / 3))
      /\ calcularPerimetro f = 0%float
      /\ (potencia_precisa eps 3 3 ->
          potencia_precisa eps (exponentiate 3 3) (2 / 3) ->
          finito_positivo (calcularArea f)
          /\ (Rabs (valor_real (calcularArea f) - 9)
              <= 9 * (4 * eps + / 2 ^ 42))%R)
      /\ (exponentiate 3 3 = 27%float ->
          exponentiate 27 (2 / 3) = 0x1.1ffffffffffffp+3%float ->
          potencia_precisa (/ 2 ^ 52) 27 (2 / 3)
          /\ calcularArea f = 0x1.1ffffffffffffp+3%float
          /\ (9 - valor_real (calcularArea f) = / 2 ^ 49)%R)).
Proof.
  intros Hx He.
  pose proof (crear_cubo {[ "lado" := JsNumber x ]} k) as Hc.
  pose proof (crear_esfera {[ "radio" := JsNumber x ]} k) as Hs.
  pose proof (crear_cubo {[ "lado" := JsNumber 3 ]} k) as H3.
  rewrite campo_singleton in Hc, Hs, H3.
  split; [intros s n; split; [reflexivity|]; split; [reflexivity|];
          now apply Reales.adaptador_cerca|].
  split; [cbv zeta; split; [now apply Hc|]; do 3 (split; [reflexivity|]);
          now apply Reales.cubo_cerca|].
  split; [cbv zeta; split; [now apply Hs | repeat split]|].
  cbv zeta. split; [now apply H3|].
  split; [reflexivity|].
  split; [intros H; simpl; now rewrite H|].
  split; [reflexivity|]. split.
  - intros P1 P2.
    destruct (Reales.cubo_cerca 3 "Cubo" "Cubo" eps He eq_refl P1 P2) as [F C].
    split; [exact F|].
    unfold cerca in C. rewrite Reales.valor_3 in C.
    replace (3 * 3)%R with 9%R in C by lra. lra.
  - intros E1 E2. cbn [calcularArea calcularVolumen]. rewrite E1, E2.
    split; [|split; [reflexivity|]].
    + unfold potencia_precisa. rewrite E2. exact Reales.bajo_9_preciso.
    + rewrite Reales.valor_bajo_9. lra.
Qed.

Lemma adaptador_area_perimetro_witness :
  let f := Figura3DAdapter (Cubo "Cubo" 3) "Cubo" in
  @crear runtime_de_prueba (JsString "cubo") {[ "lado" := JsNumber 3 ]} 0
  = (Ok f, 0%nat)
  /\ @calcularArea runtime_de_prueba f = 9%float
  /\ calcularPerimetro f = 0%float
  /\ finito_positivo (@calcularArea runtime_de_prueba f)
  /\ (Rabs (valor_real (@calcularArea runtime_de_prueba f) - 9)
      <= 9 * (4 * / 2 ^ 40 + / 2 ^ 42))%R.
Proof.
  assert (0 <= / 2 ^ 40 <= 1 / 4)%R as He
    by (rewrite Reales.dos_40; lra).
  destruct (@adaptador_area_perimetro runtime_de_prueba 3 0 (/ 2 ^ 40)
              eq_refl He) as (_ & _ & _ & Hc & _ & _ & Hp & H9 & _).
  destruct Reales.potencia_de_prueba_precisa as (_ & _ & P1 & P2).
  destruct (H9 P1 P2) as [F C].
  cbv zeta. split; [exact Hc|]. split; [reflexivity|].
  split; [exact Hp|]. split; [exact F | exact C].
Defined.

(** ** C5: similarity by area *)

Lemma sonSimilares_area `{rt : Runtime} (A B : Figura) :
  sonSimilares SimilitudArea A B
  = Ok (en_banda (calcularArea A / calcularArea B)).
Proof. reflexivity. Qed.



(** ** C6: similarity by type *)

(** The display name the constructor behind each tag assigns. *)
Lemma crear_nombre `{rt : Runtime} (t : string) (p : gmap string JsValue)
    (k k' : nat) (f : Figura) :
  crear (JsString t) p k = (Ok f, k') ->
  t ∈ reconocidos /\ nombre f = etiqueta t.
Proof.
  unfold crear, reconocidos.
  repeat match goal with
         | |- context [String.eqb t ?c] =>
             destruct (String.eqb_spec t c) as [-> | _]
         end;
    try discriminate;
    match goal with
    | |- ?m k = _ -> _ =>
        unfold new_Circulo, new_Rectangulo, new_Pentagono, new_Hexagono,
          new_Cubo, new_Esfera, new_Figura3DAdapter, nuevo_id, lift,
          mbind, M_bind, mret, M_ret
    end;
    repeat match goal with
           | |- context [validarNumero ?v ?n] =>
               destruct (validarNumero_casos v n) as [-> | ->]
           end;
    intros H; try discriminate H; injection H as <- <-;
    (split; [set_solver | reflexivity]).
Qed.

(** C6: for every pair of shapes, the type strategy returns true if and only
    if their [nombre] fields are the same string, compared exactly.  Two
    instances the factory builds compare true when built from the same kind
    tag, whatever their parameters, and false when built from different
    tags.  [compararSimilitud(other)] with the strategy omitted is the type
    strategy.  The comparison is case-sensitive: an instance renamed
    [círculo] does not match one named [Círculo]. *)
Theorem similitud_tipo `{rt : Runtime} (A B : Figura) :
  (sonSimilares SimilitudTipo A B = Ok true <-> nombre A = nombre B)
  /\ (sonSimilares SimilitudTipo A B = Ok false <-> nombre A <> nombre B)
  /\ (forall (t1 t2 : string) (p1 p2 : gmap string JsValue)
        (k1 k2 k1' k2' : nat),
        crear (JsString t1) p1 k1 = (Ok A, k1') ->
        crear (JsString t2) p2 k2 = (Ok B, k2') ->
        sonSimilares SimilitudTipo A B = Ok (bool_decide (t1 = t2)))
  /\ (responde A "compararSimilitud" = true ->
      compararSimilitud A B None = sonSimilares SimilitudTipo A B)
  /\ (clase_de A <> CFigura3DAdapter ->
      compararSimilitud A B None = Ok (nombre A =? nombre B))
  /\ sonSimilares SimilitudTipo (Circulo "Círculo" "a" 1)
       (Circulo "círculo" "b" 1) = Ok false.
Proof.
  cbn [sonSimilares].
  split; [|split; [|split; [|split; [|split; [|reflexivity]]]]].
  - destruct (String.eqb_spec (nombre A) (nombre B)); split; congruence.
  - destruct (String.eqb_spec (nombre A) (nombre B)); split; congruence.
  - intros t1 t2 p1 p2 k1 k2 k1' k2' H1 H2.
    apply crear_nombre in H1 as [R1 ->], H2 as [R2 ->]. f_equal.
    apply reconocidos_casos in R1, R2.
    destruct R1 as [-> | [-> | [-> | [-> | [-> | ->]]]]];
      destruct R2 as [-> | [-> | [-> | [-> | [-> | ->]]]]]; reflexivity.
  - unfold compararSimilitud. now intros ->.
  - unfold compararSimilitud, responde. destruct A; try reflexivity. easy.
Qed.

Lemma similitud_tipo_witness :
  @sonSimilares runtime_de_prueba SimilitudTipo
    (Circulo "Círculo" "i" 5) (Pentagono "Pentágono" "i" 4)
  = Ok (bool_decide ("circulo" = "pentagono"))
  /\ @compararSimilitud runtime_de_prueba
       (Circulo "Círculo" "i" 5) (Pentagono "Pentágono" "i" 4) None
     = Ok false.
Proof.
  pose proof (@similitud_tipo runtime_de_prueba
                (Circulo "Círculo" "i" 5) (Pentagono "Pentágono" "i" 4))
    as (_ & _ & H & _ & D & _).
  split.
  - refine (H "circulo" "pentagono" {[ "radio" := JsNumber 5 ]}
              {[ "lado" := JsNumber 4 ]} 0%nat 1%nat 1%nat 2%nat _ _);
      reflexivity.
  - refine (D _). discriminate.
Defined.

(** ** C7: unknown kind tags *)

(** C7: for every kind tag outside [circulo], [rectangulo], [pentagono],
    [hexagono], [cubo], [esfera] (the tags the specification renders circle,
    rectangle, pentagon, hexagon, cube, sphere), a string or any other
    value, and every parameter bag, the factory throws UnknownKind and
    draws no id; so it does for a triangle, under either spelling. *)
Theorem crear_tipo_desconocido `{rt : Runtime} (tipo : JsValue)
    (p : gmap string JsValue) (k : nat) :
  (forall t, t ∈ reconocidos -> tipo <> JsString t) ->
  crear tipo p k = (Throw UnknownKind, k)
  /\ crear (JsString "triangulo") p k = (Throw UnknownKind, k)
  /\ crear (JsString "triangle") p k = (Throw UnknownKind, k).
Proof.
  intros H. split; [|split; reflexivity].
  destruct tipo as [| |b|x|z|t|d|r|r]; try reflexivity.
  unfold crear, reconocidos in *.
  repeat match goal with
         | |- context [String.eqb t ?c] =>
             destruct (String.eqb_spec t c) as [-> | _];
             [exfalso; apply (H c); [set_solver | reflexivity] |]
         end.
  reflexivity.
Qed.

Lemma crear_tipo_desconocido_witness :
  @crear runtime_de_prueba (JsString "Circulo") {[ "radio" := JsNumber 5 ]} 0
  = (Throw UnknownKind, 0%nat).
Proof.
  refine (proj1 (@crear_tipo_desconocido runtime_de_prueba (JsString "Circulo")
                   {[ "radio" := JsNumber 5 ]} 0 _)).
  intros t Ht E. apply reconocidos_casos in Ht.
  injection E as <-.
  destruct Ht as [? | [? | [? | [? | [? | ?]]]]]; discriminate.
Defined.

(** ** C8: the renderings of the solids *)

(** C8, as stated, fails for the sphere: its rendering is, character for
    character, the circle's. *)
Lemma dibujo_esfera_es_circulo :
  Solido_dibujarASCII (Esfera "Esfera" 4)
  = dibujarASCII (Circulo "Círculo" "i" 5)
  /\ dibujarASCII (Figura3DAdapter (Esfera "Esfera" 4) "Esfera")
     = dibujarASCII (Circulo "Círculo" "i" 5).
Proof. split; reflexivity. Qed.

(** C8 (amended): each solid kind's [dibujarASCII()] returns a fixed string,
    whatever the dimensions, and the adapter returns its solid's.  The
    cube's pattern differs from the pattern of each 2D kind; the sphere's
    pattern is the circle's and differs from the rectangle's, the
    pentagon's and the hexagon's. *)
Theorem dibujos_solidos (s : Solido) (f : Figura) :
  (forall n l n' l',
     Solido_dibujarASCII (Cubo n l) = Solido_dibujarASCII (Cubo n' l'))
  /\ (forall n r n' r',
     Solido_dibujarASCII (Esfera n r) = Solido_dibujarASCII (Esfera n' r'))
  /\ (forall n, dibujarASCII (Figura3DAdapter s n) = Solido_dibujarASCII s)
  /\ (clase_de f <> CFigura3DAdapter ->
      (Solido_dibujarASCII s = dibujarASCII f
       <-> (exists n r, s = Esfera n r) /\ clase_de f = CCirculo)).
Proof.
  split; [reflexivity|]. split; [reflexivity|]. split; [reflexivity|].
  intros Hc.
  destruct s as [n l | n r], f as [? ? ? | ? ? ? ? | ? ? ? | ? ? ? | ? ?];
    cbn [Solido_dibujarASCII dibujarASCII clase_de] in *;
    try (now destruct Hc);
    (split;
     [ intros H; first [discriminate H | split; [eauto | reflexivity]]
     | intros [(n' & r' & E) Hk];
       first [discriminate E | discriminate Hk | reflexivity] ]).
Qed.

(** ** C9: the collection *)

Lemma agregar_varios (fs : list Figura) (c : ColeccionFiguras) :
  figuras (fold_left agregar fs c) = (figuras c ++ fs)%list.
Proof.
  revert c. induction fs as [|f fs IH]; intros c; simpl.
  - now rewrite app_nil_r.
  - rewrite IH. simpl. now rewrite <- app_assoc.
Qed.

Lemma listar_map `{rt : Runtime} (c : ColeccionFiguras) (consola : list string) :
  listar c consola
  = (consola ++ "=== FIGURAS ===" :: map describir (figuras c))%list.
Proof.
  unfold listar, console_log.
  generalize (figuras c) as fs.
  assert (forall (fs : list Figura) (l : list string),
            fold_left (fun l f => l ++ [describir f])%list fs l
            = (l ++ map describir fs)%list) as H.
  { induction fs as [|f fs IH]; intros l; simpl.
    - now rewrite app_nil_r.
    - rewrite IH. now rewrite <- app_assoc. }
  intros fs. rewrite H. now rewrite <- app_assoc.
Qed.

(** C9: [agregar] appends, so after adding a sequence of shapes the
    collection holds its former members followed by that sequence in
    order; [listar] writes the header line and then the [describir()] of
    each member, once each, in insertion order.  Adding A, B, C to a new
    collection and listing writes the descriptions of A, B, C in that
    order. *)
Theorem coleccion_orden `{rt : Runtime} (c : ColeccionFiguras)
    (fs : list Figura) (consola : list string) :
  figuras (fold_left agregar fs c) = (figuras c ++ fs)%list
  /\ (forall f, figuras (agregar c f) = (figuras c ++ [f])%list)
  /\ listar c consola
     = (consola ++ "=== FIGURAS ===" :: map describir (figuras c))%list
  /\ listar (fold_left agregar fs new_ColeccionFiguras) consola
     = (consola ++ "=== FIGURAS ===" :: map describir fs)%list
  /\ (forall A B C : Figura,
        listar (agregar (agregar (agregar new_ColeccionFiguras A) B) C) []
        = ["=== FIGURAS ==="; describir A; describir B; describir C]).
Proof.
  split; [apply agregar_varios|].
  split; [reflexivity|].
  split; [apply listar_map|].
  split; [|reflexivity].
  now rewrite listar_map, agregar_varios.
Qed.

(** ** C10: the area of a valid shape and the ratio of two areas *)

(** C10, as stated, fails for a small rectangle: the area of
    [new Rectangulo(2^-600, 2^-600)] is 0, so comparing the 1 x 5 rectangle
    with it divides 5 by 0; the ratio is [Infinity] and the result false. *)
Lemma area_cero_division :
  Figura_valida (Rectangulo "Rectángulo" "a" 1 5)
  /\ Figura_valida (Rectangulo "Rectángulo" "b" 0x1p-600 0x1p-600)
  /\ (forall rt : Runtime,
        @calcularArea rt (Rectangulo "Rectángulo" "b" 0x1p-600 0x1p-600)
        = 0%float
        /\ (@calcularArea rt (Rectangulo "Rectángulo" "a" 1 5)
            / @calcularArea rt (Rectangulo "Rectángulo" "b" 0x1p-600 0x1p-600))%float
           = infinity
        /\ @sonSimilares rt SimilitudArea (Rectangulo "Rectángulo" "a" 1 5)
             (Rectangulo "Rectángulo" "b" 0x1p-600 0x1p-600) = Ok false)
  /\ (0 <? 0)%float = false.
Proof. repeat split. Qed.

(** C10 (amended): for every shape with strictly positive real dimensions,
    a 2D shape or an adapter over a solid, [calcularArea()] is never
    negative and never NaN, on an engine whose [**] is non-negative on
    non-negative bases and whose [Math.tan(Math.PI / 5)] lies in (0, 1]; it
    can be 0.  On two such shapes the area strategy returns a boolean, the
    band test on [areaA / areaB], and does not throw; where [areaB] is 0 the
    ratio is [Infinity] or NaN and the result is false. *)
Theorem area_similitud_total `{rt : Runtime} (A B : Figura) :
  potencia_no_negativa -> tangente_acotada ->
  Figura_valida A -> Figura_valida B ->
  no_negativo (calcularArea A) /\ no_negativo (calcularArea B)
  /\ sonSimilares SimilitudArea A B
     = Ok (en_banda (calcularArea A / calcularArea B))
  /\ ((calcularArea B =? 0)%float = true ->
      sonSimilares SimilitudArea A B = Ok false).
Proof.
  intros Hpow Htan HA HB.
  split; [now apply area_no_negativa|].
  split; [now apply area_no_negativa|].
  split; [reflexivity|].
  intros H0. rewrite sonSimilares_area. f_equal.
  now apply IEEE.div_cero_fuera.
Qed.

Lemma area_similitud_total_witness :
  no_negativo (@calcularArea runtime_de_prueba (Circulo "Círculo" "i" 5))
  /\ no_negativo
       (@calcularArea runtime_de_prueba
          (Figura3DAdapter (Cubo "Cubo" 3) "Cubo"))
  /\ @sonSimilares runtime_de_prueba SimilitudArea (Circulo "Círculo" "i" 5)
       (Figura3DAdapter (Cubo "Cubo" 3) "Cubo")
     = Ok (en_banda
             (@calcularArea runtime_de_prueba (Circulo "Círculo" "i" 5)
              / @calcularArea runtime_de_prueba
                  (Figura3DAdapter (Cubo "Cubo" 3) "Cubo"))).
Proof.
  pose proof (@area_similitud_total runtime_de_prueba
                (Circulo "Círculo" "i" 5)
                (Figura3DAdapter (Cubo "Cubo" 3) "Cubo")
                potencia_de_prueba_no_negativa tangente_de_prueba_acotada)
    as H.
  destruct H as (H1 & H2 & H3 & _); [reflexivity | reflexivity |].
  exact (conj H1 (conj H2 H3)).
Defined.

(** * Further properties *)

(** ** The factory, case by case *)

Lemma validarNumero_pasa (v : JsValue) (n : string) :
  validarNumero v n = if pasa v then Ok tt else Throw (InvalidParameter n).
Proof.
  unfold validarNumero, pasa.
  destruct (typeof v =? "number"), (menor_igual_cero v); reflexivity.
Qed.

Lemma no_reconocido (t : string) :
  t <> "circulo" -> t <> "rectangulo" -> t <> "pentagono" -> t <> "hexagono" ->
  t <> "cubo" -> t <> "esfera" -> t ∉ reconocidos.
Proof.
  intros ? ? ? ? ? ? H. apply reconocidos_casos in H. tauto.
Qed.

(** The three outcomes of [crear] on a string tag. *)
Lemma crear_casos `{rt : Runtime} (t : string) (p : gmap string JsValue)
    (k : nat) :
  ((t ∉ reconocidos) /\ crear (JsString t) p k = (Throw UnknownKind, k))
  \/ ((t ∈ reconocidos) /\ exists c,
        primer_rechazado t p = Some c
        /\ crear (JsString t) p k = (Throw (InvalidParameter c), k))
  \/ ((t ∈ reconocidos) /\ primer_rechazado t p = None /\ exists f,
        crear (JsString t) p k
        = (Ok f, if bool_decide (t ∈ tridimensionales) then k else S k)
        /\ dimensiones f = map (fun c => numero (campo p c)) (campos_de t)
        /\ nombre f = etiqueta t
        /\ get_id f = (if bool_decide (t ∈ tridimensionales)
                       then JsUndefined else JsString (id_de k))).
Proof.
  unfold crear.
  destruct (String.eqb_spec t "circulo") as [-> | N1];
  [|destruct (String.eqb_spec t "rectangulo") as [-> | N2];
  [|destruct (String.eqb_spec t "pentagono") as [-> | N3];
  [|destruct (String.eqb_spec t "hexagono") as [-> | N4];
  [|destruct (String.eqb_spec t "cubo") as [-> | N5];
  [|destruct (String.eqb_spec t "esfera") as [-> | N6]]]]]].
  7: { left. split; [now apply no_reconocido | reflexivity]. }
  all: right;
    unfold new_Circulo, new_Rectangulo, new_Pentagono, new_Hexagono, new_Cubo,
      new_Esfera, new_Figura3DAdapter, nuevo_id, lift, mbind, M_bind, mret,
      M_ret, primer_rechazado;
    cbn [campos_de String.eqb Ascii.eqb Bool.eqb List.find];
    rewrite ?validarNumero_pasa;
    repeat match goal with
           | |- context [pasa ?v] => destruct (pasa v) eqn:?
           end;
    cbn [negb];
    first [ left; (split; [set_solver|]); eexists; split; reflexivity
          | right; (split; [set_solver|]); (split; [reflexivity|]);
            eexists; repeat split ].
Qed.

Lemma find_None_Forall {A : Type} (f : A -> bool) (l : list A) :
  List.find f l = None <-> Forall (fun x => f x = false) l.
Proof.
  induction l as [|x l IH]; simpl.
  - split; [constructor | reflexivity].
  - destruct (f x) eqn:E.
    + split; [discriminate|]. intros H. apply Forall_cons in H as [H _]. congruence.
    + rewrite IH. split; [now constructor | intros H; now apply Forall_cons in H].
Qed.

Lemma primer_rechazado_None (t : string) (p : gmap string JsValue) :
  primer_rechazado t p = None
  <-> Forall (fun c => pasa (campo p c) = true) (campos_de t).
Proof.
  unfold primer_rechazado. rewrite find_None_Forall.
  apply Forall_iff. intros c. now destruct (pasa (campo p c)).
Qed.

Lemma pasa_numero (v : JsValue) :
  pasa v = true -> v = JsNumber (numero v) /\ (numero v <=? 0)%float = false.
Proof.
  destruct v; try discriminate. unfold pasa. simpl.
  now destruct (x <=? 0)%float.
Qed.

(** ** X1: when the factory succeeds *)

(** X1: [crear(t, p)] returns an instance if and only if [t] is one of the
    six tags of the switch and every field the kind reads from [p] is of
    type number and not [<= 0]; a missing field, [undefined], fails it. *)
Theorem crear_exito_sii `{rt : Runtime} (t : string)
    (p : gmap string JsValue) (k : nat) :
  (exists f k', crear (JsString t) p k = (Ok f, k'))
  <-> (t ∈ reconocidos)
      /\ Forall (fun c => pasa (campo p c) = true) (campos_de t).
Proof.
  rewrite <- primer_rechazado_None.
  destruct (crear_casos t p k)
    as [[N E] | [(R & c & F & E) | (R & F & f & E & _)]]; rewrite E.
  - split; [intros (f & k' & H); discriminate | tauto].
  - rewrite F. split; [intros (f & k' & H); discriminate | intros [_ H]; discriminate].
  - split; [tauto | eauto].
Qed.

(** ** X2: what the instance holds *)

(** X2: the instance [crear(t, p)] returns holds, as its dimensions, the
    Numbers of the bag's fields for the kind, in constructor order and
    unchanged; each is a Number for which [<= 0] is false, so no instance has
    a zero or negative dimension, and its [nombre] is the kind's display
    name. *)
Theorem crear_conserva_parametros `{rt : Runtime} (t : string)
    (p : gmap string JsValue) (k k' : nat) (f : Figura) :
  crear (JsString t) p k = (Ok f, k') ->
  map JsNumber (dimensiones f) = map (campo p) (campos_de t)
  /\ Forall (fun d => (d <=? 0)%float = false) (dimensiones f)
  /\ nombre f = etiqueta t.
Proof.
  intros H.
  destruct (crear_casos t p k)
    as [[N E] | [(R & c & F & E) | (R & F & f' & E & D & Hn & _)]];
    rewrite E in H; try discriminate.
  injection H as <- _.
  apply primer_rechazado_None in F. rewrite D. clear E D.
  split; [|split; [|exact Hn]].
  - rewrite map_map. apply map_ext_Forall.
    eapply Forall_impl; [exact F|]. intros c Hc. simpl in Hc.
    now apply pasa_numero in Hc as [<- _].
  - apply Forall_map. eapply Forall_impl; [exact F|]. intros c Hc.
    now apply pasa_numero in Hc as [_ Hc].
Qed.

Lemma crear_conserva_parametros_witness :
  map JsNumber (dimensiones (Rectangulo "Rectángulo" "i" 2 3))
  = map (campo {[ "ancho" := JsNumber 2; "alto" := JsNumber 3 ]})
      (campos_de "rectangulo")
  /\ Forall (fun d => (d <=? 0)%float = false)
       (dimensiones (Rectangulo "Rectángulo" "i" 2 3))
  /\ nombre (Rectangulo "Rectángulo" "i" 2 3) = etiqueta "rectangulo".
Proof.
  refine (@crear_conserva_parametros runtime_de_prueba "rectangulo"
            {[ "ancho" := JsNumber 2; "alto" := JsNumber 3 ]} 0 1
            (Rectangulo "Rectángulo" "i" 2 3) _).
  reflexivity.
Defined.

(** ** X3: the errors of the factory *)

Lemma length_append (s1 s2 : string) :
  String.length (s1 +:+ s2) = (String.length s1 + String.length s2)%nat.
Proof. induction s1 as [|a s1 IH]; simpl; [reflexivity | now rewrite IH]. Qed.

Lemma append_inj_r (s1 s2 s : string) : s1 +:+ s = s2 +:+ s -> s1 = s2.
Proof.
  revert s2. induction s1 as [|a s1 IH]; intros [|b s2] H.
  - reflexivity.
  - apply (f_equal String.length) in H. rewrite !length_append in H.
    cbn [String.length] in H. lia.
  - apply (f_equal String.length) in H. rewrite !length_append in H.
    cbn [String.length] in H. lia.
  - change (String a (s1 +:+ s) = String b (s2 +:+ s)) in H.
    injection H as -> H. f_equal. now apply IH.
Qed.

Lemma InvalidParameter_inj (c1 c2 : string) :
  InvalidParameter c1 = InvalidParameter c2 -> c1 = c2.
Proof.
  unfold InvalidParameter. intros H. injection H as H.
  exact (append_inj_r c1 c2 _ H).
Qed.

Lemma InvalidParameter_UnknownKind (c : string) : InvalidParameter c <> UnknownKind.
Proof. discriminate. Qed.

Lemma pasa_rechazado (v : JsValue) : pasa v = false <-> rechazado v.
Proof.
  unfold pasa, rechazado.
  destruct v as [| |b|x|z|s|d|r|r]; cbn [typeof menor_igual_cero];
    try (split; [intros _; left; discriminate | reflexivity]).
  change ("number" =? "number") with true. cbn [andb]. split.
  - intros H. right. exists x. split; [reflexivity|].
    now destruct (x <=? 0)%float.
  - intros [H | (y & [= <-] & H)]; [contradiction | now rewrite H].
Qed.

Lemma find_Some_partes {A : Type} (f : A -> bool) (l : list A) (c : A) :
  List.find f l = Some c ->
  exists antes despues,
    l = (antes ++ c :: despues)%list /\ f c = true
    /\ Forall (fun x => f x = false) antes.
Proof.
  induction l as [|x l IH]; simpl; [discriminate|].
  destruct (f x) eqn:E.
  - intros [= ->]. exists [], l. repeat split; [exact E | constructor].
  - intros H. destruct (IH H) as (antes & despues & -> & Hc & Ha).
    exists (x :: antes), despues. repeat split; [exact Hc | now constructor].
Qed.

Lemma primer_rechazado_Some (t : string) (p : gmap string JsValue) (c : string) :
  primer_rechazado t p = Some c ->
  exists antes despues,
    campos_de t = (antes ++ c :: despues)%list
    /\ rechazado (campo p c)
    /\ Forall (fun c' => ~ rechazado (campo p c')) antes.
Proof.
  intros H. apply find_Some_partes in H as (antes & despues & E & Hc & Ha).
  exists antes, despues. split; [exact E|]. split.
  - apply pasa_rechazado. now destruct (pasa (campo p c)).
  - eapply Forall_impl; [exact Ha|]. intros c' Hc' R. simpl in Hc'.
    apply pasa_rechazado in R. rewrite R in Hc'. discriminate.
Qed.

Lemma crear_sin_bolsa `{rt : Runtime} (tipo : JsValue) (k : nat) :
  (exists t m, tipo = JsString t /\ (t ∈ reconocidos)
     /\ FiguraGeometrica_crear tipo SinBolsa k = (Throw (TypeError m), k))
  \/ ((forall t, t ∈ reconocidos -> tipo <> JsString t)
      /\ FiguraGeometrica_crear tipo SinBolsa k = (Throw UnknownKind, k)).
Proof.
  destruct tipo as [| |b|x|z|t|d|r|r];
    try (right; split; [discriminate | reflexivity]).
  cbn [FiguraGeometrica_crear].
  destruct (String.eqb_spec t "circulo") as [-> | N1];
  [|destruct (String.eqb_spec t "rectangulo") as [-> | N2];
  [|destruct (String.eqb_spec t "pentagono") as [-> | N3];
  [|destruct (String.eqb_spec t "hexagono") as [-> | N4];
  [|destruct (String.eqb_spec t "cubo") as [-> | N5];
  [|destruct (String.eqb_spec t "esfera") as [-> | N6]]]]]].
  7: { right. split; [|reflexivity]. intros t' R [= <-].
       now apply (no_reconocido t). }
  all: left; eexists _, _; split; [reflexivity|]; split; [set_solver|reflexivity].
Qed.

(** X3: when [crear] throws, no id has been drawn and the error is one of
    three.  For a tag outside the switch it is UnknownKind, whatever the
    second argument.  For a tag of the switch with [undefined] or [null] as
    second argument it is the engine's [TypeError], and without a bag the
    factory always throws.  Otherwise it is InvalidParameter naming the
    first field, in the order the constructor validates, that
    [validarNumero] rejects: one whose value is not of type number or is
    [<= 0]; every field before it is not rejected.  NaN is not rejected:
    for a rectangle with [ancho] NaN and [alto] -1 the field reported is
    [alto].  A bag that lacks the kind's first field is reported on that
    field.  The message determines the field, and no field's message is
    UnknownKind's. *)
Theorem crear_error `{rt : Runtime} (tipo : JsValue) (b : Bolsa)
    (k k' : nat) (e : JsError) :
  FiguraGeometrica_crear tipo b k = (Throw e, k') ->
  k' = k
  /\ ((e = UnknownKind /\ forall t, t ∈ reconocidos -> tipo <> JsString t)
      \/ (exists t m, tipo = JsString t /\ (t ∈ reconocidos)
            /\ b = SinBolsa /\ e = TypeError m)
      \/ (exists t p c antes despues,
            tipo = JsString t /\ (t ∈ reconocidos) /\ b = ConCampos p
            /\ e = InvalidParameter c
            /\ primer_rechazado t p = Some c
            /\ campos_de t = (antes ++ c :: despues)%list
            /\ rechazado (campo p c)
            /\ Forall (fun c' => ~ rechazado (campo p c')) antes))
  /\ (forall tipo' j, exists e',
        FiguraGeometrica_crear tipo' SinBolsa j = (Throw e', j))
  /\ (forall t c q, t ∈ reconocidos -> head (campos_de t) = Some c ->
        q !! c = None ->
        FiguraGeometrica_crear (JsString t) (ConCampos q) k
        = (Throw (InvalidParameter c), k))
  /\ (~ rechazado (JsNumber nan)
      /\ FiguraGeometrica_crear (JsString "rectangulo")
           (ConCampos {[ "ancho" := JsNumber nan; "alto" := JsNumber (-1) ]}) k
         = (Throw (InvalidParameter "alto"), k))
  /\ (forall c1 c2, InvalidParameter c1 = InvalidParameter c2 -> c1 = c2)
  /\ (forall c, InvalidParameter c <> UnknownKind).
Proof.
  intros H.
  split; [|split; [|split; [|split; [|split; [|split;
    [exact InvalidParameter_inj | exact InvalidParameter_UnknownKind]]]]]].
  - destruct b as [|p].
    + destruct (crear_sin_bolsa tipo k) as [(t & m & _ & _ & E) | [_ E]];
        rewrite E in H; now injection H as _ <-.
    + cbn [FiguraGeometrica_crear] in H.
      destruct tipo as [| |b|x|z|t|d|r|r]; try (injection H as _ <-; reflexivity).
      destruct (crear_casos t p k)
        as [[N E] | [(R & c & F & E) | (R & F & f & E & _)]];
        rewrite E in H; try discriminate; now injection H as _ <-.
  - destruct b as [|p].
    + destruct (crear_sin_bolsa tipo k) as [(t & m & Et & R & E) | [N E]];
        rewrite E in H; injection H as <- _.
      * right; left. now exists t, m.
      * left. now split.
    + cbn [FiguraGeometrica_crear] in H.
      destruct tipo as [| |b|x|z|t|d|r|r];
        try (injection H as <- _; left; split; [reflexivity | discriminate]).
      destruct (crear_casos t p k)
        as [[N E] | [(R & c & F & E) | (R & F & f & E & _)]];
        rewrite E in H; try discriminate; injection H as <- _.
      * left. split; [reflexivity|]. intros t' R' [= ->]. contradiction.
      * right; right.
        destruct (primer_rechazado_Some t p c F) as (antes & despues & Ec & Rc & Ra).
        now exists t, p, c, antes, despues.
  - intros tipo' j.
    destruct (crear_sin_bolsa tipo' j) as [(t & m & _ & _ & E) | [_ E]];
      rewrite E; eauto.
  - intros t c q R Hc Hq. cbn [FiguraGeometrica_crear].
    destruct (crear_casos t q k)
      as [[N E] | [(_ & c' & F & E) | (_ & F & f & E & _)]]; [contradiction | |].
    + rewrite E. do 3 f_equal.
      unfold primer_rechazado in F. destruct (campos_de t) as [|c0 cs]; [discriminate|].
      injection Hc as ->. simpl in F. unfold campo in F at 1. rewrite Hq in F.
      simpl in F. now injection F as <-.
    + apply primer_rechazado_None in F.
      destruct (campos_de t) as [|c0 cs]; [discriminate|].
      injection Hc as ->. apply Forall_cons in F as [F _].
      unfold campo in F. rewrite Hq in F. discriminate.
  - split; [|reflexivity].
    intros [N | (x & [= <-] & N)]; [now apply N | discriminate N].
Qed.

Lemma crear_error_witness :
  exists c antes despues,
    primer_rechazado "rectangulo" {[ "ancho" := JsNumber 2 ]} = Some c
    /\ InvalidParameter "alto" = InvalidParameter c
    /\ campos_de "rectangulo" = (antes ++ c :: despues)%list
    /\ rechazado (campo {[ "ancho" := JsNumber 2 ]} c)
    /\ Forall (fun c' => ~ rechazado (campo {[ "ancho" := JsNumber 2 ]} c'))
         antes.
Proof.
  pose proof (@crear_error runtime_de_prueba (JsString "rectangulo")
                (ConCampos {[ "ancho" := JsNumber 2 ]}) 1 1
                (InvalidParameter "alto") eq_refl) as H.
  destruct H as (_ & [[E _] | [(t & m & _ & _ & E & _)
                              | (t & p & c & a & d & Et & _ & Ep & E & F & Ec & Rc & Ra)]] & _).
  - discriminate E.
  - discriminate E.
  - injection Et as <-. injection Ep as <-. now exists c, a, d.
Defined.

(** ** X4: the fields the factory reads *)

(** X4: [crear(t, p)] reads only the fields of the kind [t]: two bags that
    agree on them give the same outcome, so a field of another kind, present
    or not, changes nothing. *)
Theorem crear_solo_lee_sus_campos `{rt : Runtime} (t : string)
    (p1 p2 : gmap string JsValue) (k : nat) :
  (forall c, c ∈ campos_de t -> p1 !! c = p2 !! c) ->
  crear (JsString t) p1 k = crear (JsString t) p2 k
  /\ (forall c v, c ∉ campos_de t ->
        crear (JsString t) (<[c := v]> p1) k = crear (JsString t) p1 k).
Proof.
  assert (forall q1 q2 : gmap string JsValue,
            (forall c, c ∈ campos_de t -> q1 !! c = q2 !! c) ->
            crear (JsString t) q1 k = crear (JsString t) q2 k) as G.
  { intros q1 q2 H. unfold crear.
    repeat match goal with
           | |- context [String.eqb t ?c] =>
               destruct (String.eqb_spec t c) as [-> | _]
           end;
      try reflexivity;
      cbn [campos_de String.eqb Ascii.eqb Bool.eqb] in H;
      unfold campo; rewrite !H by set_solver; reflexivity. }
  intros H. split; [now apply G|].
  intros c v Hc. apply G. intros c' Hc'.
  apply lookup_insert_ne. congruence.
Qed.

Lemma crear_solo_lee_sus_campos_witness :
  @crear runtime_de_prueba (JsString "circulo")
    {[ "radio" := JsNumber 5; "lado" := JsNumber (-1) ]} 0
  = @crear runtime_de_prueba (JsString "circulo") {[ "radio" := JsNumber 5 ]} 0.
Proof.
  refine (proj1 (@crear_solo_lee_sus_campos runtime_de_prueba "circulo"
                   {[ "radio" := JsNumber 5; "lado" := JsNumber (-1) ]}
                   {[ "radio" := JsNumber 5 ]} 0 _)).
  intros c Hc. cbn in Hc. apply list_elem_of_singleton in Hc as ->. reflexivity.
Defined.

(** ** X5: the draws of Math.random *)

Lemma length_substring (n m : nat) (s : string) :
  (String.length (String.substring n m s) <= m)%nat.
Proof.
  revert n m. induction s as [|a s IH]; intros [|n] [|m]; simpl; try lia.
  - specialize (IH 0%nat m). lia.
  - apply IH.
  - apply IH.
Qed.

(** X5: [crear] draws from [Math.random] exactly once when it returns a 2D
    shape, whose [id] is that draw rendered in base 36 from its third
    character on, at most 9 characters; it draws nothing when it returns an
    adapter, whose [id] is [undefined], and nothing when it throws. *)
Theorem crear_sorteos `{rt : Runtime} (tipo : JsValue)
    (p : gmap string JsValue) (k : nat) :
  match crear tipo p k with
  | (Ok (Figura3DAdapter s n), k') =>
      k' = k /\ get_id (Figura3DAdapter s n) = JsUndefined
  | (Ok f, k') =>
      k' = S k
      /\ get_id f = JsString (id_de k)
      /\ (String.length (id_de k) <= 9)%nat
  | (Throw _, k') => k' = k
  end.
Proof.
  pose proof (length_substring 2 9 (Number_toString (Math_random k) 36)) as L.
  fold (id_de k) in L. unfold crear.
  destruct tipo as [| |b|x|z|t|d|r|r]; try reflexivity.
  repeat match goal with
         | |- context [String.eqb t ?c] => destruct (String.eqb t c)
         end;
    try reflexivity;
    unfold new_Circulo, new_Rectangulo, new_Pentagono, new_Hexagono, new_Cubo,
      new_Esfera, new_Figura3DAdapter, nuevo_id, lift, mbind, M_bind, mret,
      M_ret;
    rewrite ?validarNumero_pasa;
    repeat match goal with
           | |- context [pasa ?v] => destruct (pasa v)
           end;
    repeat split; assumption.
Qed.

(** ** More binary64 arithmetic *)
Module IEEE2.

Lemma SFmul_comm (x y : spec_float) : SFmul prec emax x y = SFmul prec emax y x.
Proof.
  destruct x as [sx|sx| |sx mx ex], y as [sy|sy| |sy my ey]; simpl;
    rewrite ?(xorb_comm sx sy); try reflexivity.
  now rewrite Pos.mul_comm, Z.add_comm.
Qed.

Lemma SFadd_comm (x y : spec_float) : SFadd prec emax x y = SFadd prec emax y x.
Proof.
  destruct x as [[]|[]| |sx mx ex], y as [[]|[]| |sy my ey]; simpl;
    try reflexivity.
  now rewrite Z.add_comm, (Z.min_comm ex ey).
Qed.

Lemma mul_comm (x y : float) : (x * y = y * x)%float.
Proof.
  apply Prim2SF_inj. rewrite !FloatAxioms.mul_spec. apply SFmul_comm.
Qed.

Lemma add_comm (x y : float) : (x + y = y + x)%float.
Proof.
  apply Prim2SF_inj. rewrite !FloatAxioms.add_spec. apply SFadd_comm.
Qed.

(** A finite non-zero value divided by itself is exactly 1. *)
Lemma SFdiv_mismo (s : bool) (m : positive) (e : Z) :
  SFdiv prec emax (S754_finite s m e) (S754_finite s m e)
  = S754_finite false 4503599627370496 (-52).
Proof.
  unfold SFdiv, SFdiv_core_binary.
  rewrite xorb_nilpotent, !Z.sub_diag.
  change (Z.min (fexp prec emax 0) 0) with (-53)%Z.
  change (0 - -53)%Z with 53%Z. cbv iota.
  rewrite Z.shiftl_mul_pow2 by lia.
  assert (Z.div_eucl (Z.pos m * 2 ^ 53) (Z.pos m) = (2 ^ 53, 0)%Z) as ->.
  { pose proof (Z.div_mul (2 ^ 53) (Z.pos m) ltac:(lia)) as Q.
    pose proof (Z.mod_mul (2 ^ 53) (Z.pos m) ltac:(lia)) as R.
    rewrite (Z.mul_comm (Z.pos m)).
    unfold Z.div, Z.modulo in Q, R.
    destruct (Z.div_eucl (2 ^ 53 * Z.pos m) (Z.pos m)) as [q r].
    now subst. }
  unfold new_location. destruct (Z.even (Z.pos m)); reflexivity.
Qed.

Lemma div_mismo (x : float) :
  finito_positivo (abs x) -> (x / x = 1)%float.
Proof.
  rewrite IEEE.finito_positivo_spec, FloatAxioms.abs_spec. intros H.
  apply Prim2SF_inj. rewrite FloatAxioms.div_spec, IEEE.Prim2SF_one.
  unfold SF64div.
  destruct (Prim2SF x) as [[]|[]| |s m e]; try easy.
  apply SFdiv_mismo.
Qed.

(** Anything else divided by itself is NaN. *)
Lemma div_mismo_nan (x : float) :
  ~ finito_positivo (abs x) -> Prim2SF (x / x) = S754_nan.
Proof.
  rewrite IEEE.finito_positivo_spec, FloatAxioms.abs_spec, FloatAxioms.div_spec.
  unfold SF64div.
  destruct (Prim2SF x) as [[]|[]| |s m e]; simpl; easy.
Qed.

Lemma en_banda_nan (x : float) : Prim2SF x = S754_nan -> en_banda x = false.
Proof.
  intros H. unfold en_banda. rewrite FloatAxioms.ltb_spec, H. reflexivity.
Qed.

Lemma finito_positivo_dec (x : float) :
  finito_positivo x \/ ~ finito_positivo x.
Proof.
  unfold finito_positivo. destruct (_ && _); [now left | right; discriminate].
Qed.

End IEEE2.

(** ** X6: the type strategy is an equivalence *)

(** X6: the type strategy relates every shape to itself, gives the same
    answer in both argument orders, and is transitive; between receivers
    that have [compararSimilitud], the default comparison is symmetric
    too. *)
Theorem similitud_tipo_equivalencia `{rt : Runtime} (A B C : Figura) :
  sonSimilares SimilitudTipo A A = Ok true
  /\ sonSimilares SimilitudTipo A B = sonSimilares SimilitudTipo B A
  /\ (sonSimilares SimilitudTipo A B = Ok true ->
      sonSimilares SimilitudTipo B C = Ok true ->
      sonSimilares SimilitudTipo A C = Ok true)
  /\ (responde A "compararSimilitud" = true ->
      responde B "compararSimilitud" = true ->
      compararSimilitud A B None = compararSimilitud B A None).
Proof.
  unfold compararSimilitud. cbn [sonSimilares default].
  split; [now rewrite String.eqb_refl|].
  split; [now rewrite String.eqb_sym|].
  split.
  - intros [= H1] [= H2]. apply String.eqb_eq in H1, H2.
    rewrite H1, H2. now rewrite String.eqb_refl.
  - intros -> ->. now rewrite String.eqb_sym.
Qed.

Lemma similitud_tipo_equivalencia_witness :
  @sonSimilares runtime_de_prueba SimilitudTipo
    (Hexagono "Hexágono" "a" 1) (Hexagono "Hexágono" "c" 3) = Ok true.
Proof.
  refine (proj1 (proj2 (proj2
            (@similitud_tipo_equivalencia runtime_de_prueba
               (Hexagono "Hexágono" "a" 1) (Hexagono "Hexágono" "b" 2)
               (Hexagono "Hexágono" "c" 3)))) _ _); reflexivity.
Defined.

(** ** X7: the area strategy on a shape and itself *)

(** X7: a shape is area-similar to itself exactly when its area is finite
    and not zero: then the ratio is exactly 1; an area of 0, [Infinity] or
    NaN gives the ratio NaN and the answer false.  The area strategy is not
    transitive: the 1 x 10 and 1 x 12 rectangles are similar, the 1 x 12
    and 1 x 14 are, the 1 x 10 and 1 x 14 are not. *)
Theorem similitud_area_reflexiva `{rt : Runtime} (A : Figura) :
  (sonSimilares SimilitudArea A A = Ok true
   <-> finito_positivo (abs (calcularArea A)))
  /\ (finito_positivo (abs (calcularArea A)) ->
      (calcularArea A / calcularArea A = 1)%float)
  /\ (exists B C D : Figura,
        Figura_valida B /\ Figura_valida C /\ Figura_valida D
        /\ sonSimilares SimilitudArea B C = Ok true
        /\ sonSimilares SimilitudArea C D = Ok true
        /\ sonSimilares SimilitudArea B D = Ok false).
Proof.
  rewrite sonSimilares_area.
  split; [|split; [apply IEEE2.div_mismo|]].
  - split.
    + intros H. destruct (IEEE2.finito_positivo_dec (abs (calcularArea A))) as [F | F];
        [exact F|].
      apply IEEE2.div_mismo_nan, IEEE2.en_banda_nan in F.
      rewrite F in H. discriminate.
    + intros F. now rewrite (IEEE2.div_mismo _ F).
  - exists (Rectangulo "Rectángulo" "b" 1 10),
      (Rectangulo "Rectángulo" "c" 1 12), (Rectangulo "Rectángulo" "d" 1 14).
    repeat split.
Qed.

Lemma similitud_area_reflexiva_witness :
  @sonSimilares runtime_de_prueba SimilitudArea
    (Rectangulo "Rectángulo" "a" 2 3) (Rectangulo "Rectángulo" "a" 2 3)
  = Ok true.
Proof.
  refine (proj2 (proj1 (@similitud_area_reflexiva runtime_de_prueba
                          (Rectangulo "Rectángulo" "a" 2 3))) _).
  reflexivity.
Defined.

(** ** X8: a rectangle and its transpose *)

(** X8: exchanging the two sides of a rectangle changes neither its area
    nor its perimeter, bit for bit, so no strategy tells [w x h] from
    [h x w]. *)
Theorem rectangulo_transpuesto `{rt : Runtime} (n i n' i' : string)
    (w h : float) (B : Figura) (e : Estrategia) :
  calcularArea (Rectangulo n i w h) = calcularArea (Rectangulo n' i' h w)
  /\ calcularPerimetro (Rectangulo n i w h)
     = calcularPerimetro (Rectangulo n' i' h w)
  /\ sonSimilares SimilitudArea (Rectangulo n i w h) B
     = sonSimilares SimilitudArea (Rectangulo n' i' h w) B
  /\ sonSimilares SimilitudArea B (Rectangulo n i w h)
     = sonSimilares SimilitudArea B (Rectangulo n' i' h w)
  /\ sonSimilares e (Rectangulo n i w h) B
     = sonSimilares e (Rectangulo n i h w) B.
Proof.
  assert (forall a b c d, calcularArea (Rectangulo a b w h)
                          = calcularArea (Rectangulo c d h w)) as HA.
  { intros. apply IEEE2.mul_comm. }
  repeat split.
  - apply HA.
  - cbn [calcularPerimetro]. now rewrite IEEE2.add_comm.
  - rewrite !sonSimilares_area. now rewrite (HA n i n' i').
  - rewrite !sonSimilares_area. now rewrite (HA n i n' i').
  - destruct e; try reflexivity.
    rewrite !sonSimilares_area. now rewrite (HA n i n i).
Qed.

(** ** X9: the sign of a volume *)

(** X9: on an engine whose [**] is non-negative on non-negative bases, the
    volume of a cube or sphere with a strictly positive real dimension is
    never negative and never NaN; the sphere's is strictly positive whenever
    the cube [r ** 3] the engine returns is. *)
Theorem volumen_signo `{rt : Runtime} (s : Solido) :
  potencia_no_negativa -> Solido_valido s ->
  no_negativo (calcularVolumen s)
  /\ (forall n r, s = Esfera n r -> positivo (exponentiate r 3) ->
        positivo (calcularVolumen s)).
Proof.
  intros Hpow Hs. split; [now apply volumen_no_negativo|].
  intros n r -> H. now apply IEEE.mul_ge1_positivo.
Qed.

Lemma volumen_signo_witness :
  no_negativo (@calcularVolumen runtime_de_prueba (Esfera "Esfera" 4))
  /\ positivo (@calcularVolumen runtime_de_prueba (Esfera "Esfera" 4)).
Proof.
  pose proof (@volumen_signo runtime_de_prueba (Esfera "Esfera" 4)
                potencia_de_prueba_no_negativa eq_refl) as (H1 & H2).
  exact (conj H1 (H2 "Esfera" 4%float eq_refl eq_refl)).
Defined.

(** ** X10: FiguraGeometrica instantiated directly *)

Lemma Objeto_describir_Derivada `{rt : Runtime} (f : Figura) :
  Objeto_describir (Derivada f) = Ok (describir f).
Proof. destruct f; reflexivity. Qed.

(** X10: [new FiguraGeometrica(nombre)] succeeds for any name, drawing one
    id.  On such an object [describir] throws the message of
    [calcularArea], the perimeter never being evaluated, and so does the
    area strategy with the object on either side; the type strategy does
    not throw and compares the names.  On instances of the subclasses and of
    the adapter these operations never throw and are the methods of the
    instance. *)
Theorem base_abstracta `{rt : Runtime} (n i : string) (k : nat)
    (o : Objeto) (f g : Figura) (e : Estrategia) :
  new_FiguraGeometrica n k = (Ok (FiguraGeometrica n (id_de k)), S k)
  /\ Objeto_describir (FiguraGeometrica n i)
     = Throw (Error "Método calcularArea debe ser implementado")
  /\ Objeto_sonSimilares SimilitudArea (FiguraGeometrica n i) o
     = Throw (Error "Método calcularArea debe ser implementado")
  /\ Objeto_sonSimilares SimilitudArea (Derivada f) (FiguraGeometrica n i)
     = Throw (Error "Método calcularArea debe ser implementado")
  /\ Objeto_sonSimilares SimilitudTipo (FiguraGeometrica n i) o
     = Ok (n =? Objeto_nombre o)
  /\ Objeto_describir (Derivada f) = Ok (describir f)
  /\ Objeto_calcularArea (Derivada f) = Ok (calcularArea f)
  /\ Objeto_sonSimilares e (Derivada f) (Derivada g) = sonSimilares e f g.
Proof.
  repeat split; try reflexivity.
  apply Objeto_describir_Derivada.
Qed.

(** ** X11: listing stops at the first throw *)

Lemma forEach_describir_Derivada `{rt : Runtime} (fs : list Figura)
    (resto : list Objeto) (consola : list string) :
  forEach_describir (map Derivada fs ++ resto) consola
  = forEach_describir resto (consola ++ map describir fs)%list.
Proof.
  revert consola. induction fs as [|f fs IH]; intros consola.
  - simpl. now rewrite app_nil_r.
  - cbn [map app forEach_describir]. rewrite Objeto_describir_Derivada, IH.
    unfold console_log. now rewrite <- app_assoc.
Qed.

(** X11: on a collection whose first [FiguraGeometrica] proper comes after
    the shapes [antes], [listar] writes the header and the descriptions of
    [antes], in order, then throws the message of [calcularArea]; nothing of
    the members after it is written.  With no such member it writes what
    [listar] writes and returns. *)
Theorem listar_interrumpido `{rt : Runtime} (antes : list Figura)
    (n i : string) (despues : list Objeto) (consola : list string) :
  Objeto_listar (map Derivada antes ++ FiguraGeometrica n i :: despues) consola
  = (Throw (Error "Método calcularArea debe ser implementado"),
     (consola ++ "=== FIGURAS ===" :: map describir antes)%list)
  /\ Objeto_listar (map Derivada antes) consola
     = (Ok tt, listar {| figuras := antes |} consola).
Proof.
  unfold Objeto_listar, console_log. split.
  - rewrite forEach_describir_Derivada. cbn [forEach_describir Objeto_describir].
    now rewrite <- app_assoc.
  - rewrite <- (app_nil_r (map Derivada antes)), forEach_describir_Derivada.
    cbn [forEach_describir]. now rewrite listar_map, <- app_assoc.
Qed.

(** ** X12: listing and adding *)

(** X12: [listar] leaves the lines already on the console in place and
    writes exactly one line per member after the header; on an empty
    collection it writes the header alone.  Adding a shape adds its
    description as the last line of the next listing, a shape added twice
    being listed twice; listing twice writes the block twice. *)
Theorem listar_composicion `{rt : Runtime} (c : ColeccionFiguras)
    (f : Figura) (consola : list string) :
  listar (agregar c f) consola = (listar c consola ++ [describir f])%list
  /\ length (listar c consola) = (length consola + 1 + length (figuras c))%nat
  /\ take (length consola) (listar c consola) = consola
  /\ listar new_ColeccionFiguras consola = (consola ++ ["=== FIGURAS ==="])%list
  /\ listar (agregar (agregar c f) f) consola
     = (listar c consola ++ [describir f; describir f])%list
  /\ listar c (listar c consola)
     = (consola ++ ("=== FIGURAS ===" :: map describir (figuras c))
                ++ ("=== FIGURAS ===" :: map describir (figuras c)))%list.
Proof.
  rewrite !listar_map. cbn [agregar figuras new_ColeccionFiguras map].
  repeat split.
  - rewrite map_app. cbn [map]. now rewrite <- app_assoc.
  - rewrite length_app. cbn [length]. rewrite length_map. lia.
  - now rewrite take_app_length.
  - rewrite !map_app. cbn [map app]. rewrite <- !app_assoc. reflexivity.
  - now rewrite <- app_assoc.
Qed.

(** ** X13: the drawing of an instance *)

Lemma crear_dibujo `{rt : Runtime} (t : string) (p : gmap string JsValue)
    (k k' : nat) (f : Figura) :
  crear (JsString t) p k = (Ok f, k') ->
  (t ∈ reconocidos)
  /\ dibujarASCII f
     = (if t =? "circulo" then ASCII_Circulo
        else if t =? "rectangulo" then ASCII_Rectangulo
        else if t =? "pentagono" then ASCII_Pentagono
        else if t =? "hexagono" then ASCII_Hexagono
        else if t =? "cubo" then ASCII_Cubo
        else ASCII_Esfera).
Proof.
  intros H. split; [exact (proj1 (crear_nombre t p k k' f H))|].
  revert H. unfold crear.
  repeat match goal with
         | |- context [String.eqb t ?c] =>
             destruct (String.eqb_spec t c) as [-> | _]
         end;
    try discriminate;
    unfold new_Circulo, new_Rectangulo, new_Pentagono, new_Hexagono, new_Cubo,
      new_Esfera, new_Figura3DAdapter, nuevo_id, lift, mbind, M_bind, mret,
      M_ret;
    rewrite ?validarNumero_pasa;
    repeat match goal with
           | |- context [pasa ?v] => destruct (pasa v)
           end;
    try discriminate;
    intros H; injection H as <- _; reflexivity.
Qed.

(** X13: the drawing of an instance the factory returns depends on the kind
    tag alone, not on the parameters or the id.  Instances of two different
    kinds have different drawings, except the circle and the sphere, whose
    drawings are the same text. *)
Theorem dibujo_por_tipo `{rt : Runtime} (t t' : string)
    (p p' : gmap string JsValue) (k k' j j' : nat) (f g : Figura) :
  crear (JsString t) p k = (Ok f, k') ->
  crear (JsString t') p' j = (Ok g, j') ->
  dibujarASCII f = dibujarASCII g
  <-> t = t' \/ (t ∈ ["circulo"; "esfera"] /\ t' ∈ ["circulo"; "esfera"]).
Proof.
  intros Hf Hg.
  apply crear_dibujo in Hf as [Rf ->], Hg as [Rg ->].
  apply reconocidos_casos in Rf, Rg.
  rewrite !elem_of_cons, !elem_of_nil.
  destruct Rf as [-> | [-> | [-> | [-> | [-> | ->]]]]];
    destruct Rg as [-> | [-> | [-> | [-> | [-> | ->]]]]];
    cbn [String.eqb Ascii.eqb Bool.eqb];
    (split;
     [ intros H; first [left; reflexivity | discriminate H | tauto]
     | intros H; first [reflexivity | exfalso; intuition discriminate] ]).
Qed.

Lemma dibujo_por_tipo_witness :
  dibujarASCII (Circulo "Círculo" (@id_de runtime_de_prueba 0) 5)
  = dibujarASCII (Figura3DAdapter (Esfera "Esfera" 4) "Esfera")
  <-> "circulo" = "esfera"
      \/ ("circulo" ∈ ["circulo"; "esfera"] /\ "esfera" ∈ ["circulo"; "esfera"]).
Proof.
  refine (@dibujo_por_tipo runtime_de_prueba "circulo" "esfera"
            {[ "radio" := JsNumber 5 ]} {[ "radio" := JsNumber 4 ]}
            0 1 1 1 _ _ _ _); reflexivity.
Defined.


(** ** X14: the script *)

(** X14: on every engine the script runs to its last statement: no factory
    call and no comparison throws.  It draws three ids and calls
    [console.log] fifteen times: the banner; the header and the five
    descriptions, in the order circle, pentagon, hexagon, cube, sphere; the
    two comparisons, of which the one by type reports false; and three
    drawings, the first and the last identical.  Where [4 ** 2] is 16,
    [6 ** 2] is 36 and [Math.tan(Math.PI / 5)] is 0.7265425280053609 the
    comparison by area reports false. *)
Theorem demostracion_completa `{rt : Runtime} :
  exists lineas : list (list Argumento),
    demostracion estado_inicial = (Ok tt, {| sorteos := 3; salida := lineas |})
    /\ length lineas = 15%nat
    /\ take 6 (drop 1 lineas)
       = map (fun l => [Texto l])
           ("=== FIGURAS ==="
            :: map describir
                 [Circulo "Círculo" (id_de 0) 5; Pentagono "Pentágono" (id_de 1) 4;
                  Hexagono "Hexágono" (id_de 2) 6;
                  Figura3DAdapter (Cubo "Cubo" 3) "Cubo";
                  Figura3DAdapter (Esfera "Esfera" 4) "Esfera"])
    /\ lineas !! 8%nat
       = Some [Texto "Círculo ~ Pentágono (tipo):"; Booleano false]
    /\ (exists b, lineas !! 9%nat
                  = Some [Texto "Pentágono ~ Hexágono (área):"; Booleano b])
    /\ (exponentiate 4 2 = 16%float -> exponentiate 6 2 = 36%float ->
        Math_tan (Math_PI / 5) = 0x1.73fd61d9df543p-1%float ->
        lineas !! 9%nat
        = Some [Texto "Pentágono ~ Hexágono (área):"; Booleano false])
    /\ lineas !! 11%nat = Some [Texto ASCII_Circulo]
    /\ lineas !! 12%nat = Some [Texto ASCII_Hexagono]
    /\ lineas !! 13%nat = lineas !! 11%nat.
Proof.
  exists (salida (snd (demostracion estado_inicial))). split; [reflexivity|].
  split; [reflexivity|]. split; [reflexivity|]. split; [reflexivity|].
  split; [eexists; reflexivity|].
  split; [|repeat split].
  intros H1 H2 H3.
  change (Some [Texto "Pentágono ~ Hexágono (área):";
                Booleano (en_banda
                            (calcularArea (Pentagono "Pentágono" (id_de 1) 4)
                             / calcularArea (Hexagono "Hexágono" (id_de 2) 6)))]
          = Some [Texto "Pentágono ~ Hexágono (área):"; Booleano false]).
  cbn [calcularArea]. rewrite H1, H2, H3. reflexivity.
Qed.
